(** * Groups and their elements: a shallow embedding of [groups.py]

    The module defines [Element], the stand-alone class [CyclicGroup], the
    base class [Group] and its two subclasses [CyclicGroupInherit] and
    [GeneralLinearGroup].  Every method of the module is translated below
    under its own name; Python's dynamic features the methods rely on
    (attribute lookup along the method resolution order, exceptions, the
    constructor call hidden in [type(self)(...)]) are written out.

    Conventions.
    - Python objects the methods receive are values of [pyval]: [None],
      [bool], [int] (unbounded, [Z]), [float] (binary64, [PrimFloat]),
      [str], [list], and numpy arrays of dtype int64.
    - A call either returns, raises, or leaves the fragment of Python and
      numpy that is modelled here ([Unmodelled]); no statement below is
      proved by landing in [Unmodelled].
    - The group parameter ([order] of [CyclicGroup], [n] of [Group]) is an
      [int]; nothing in the module checks its sign, so it ranges over [Z]. *)

From Stdlib Require Import ZArith List String Ascii Bool Lia.
From Stdlib Require Import DecimalString.
From Stdlib Require Import PrimFloat SpecFloat FloatOps.
Import ListNotations.
Open Scope string_scope.
Open Scope Z_scope.

(** ** Values *)

(** A numpy array of dtype int64: its [shape] and its items in row-major
    order. *)
Record ndarray := mk_ndarray { shape : list nat; data : list Z }.

(** [a.size]: the number of items a shape announces. *)
Definition size (a : ndarray) : nat := fold_right Nat.mul 1%nat (shape a).

#[local] Unset Elimination Schemes.
Inductive pyval :=
| VNone
| VBool (b : bool)
| VInt (z : Z)
| VFloat (f : float)
| VStr (s : string)
| VList (l : list pyval)
| VArray (a : ndarray).
#[local] Set Elimination Schemes.

(** Structural induction that also reaches the items of a list. *)
Section pyval_induction.
Variable P : pyval -> Prop.
Hypothesis HNone : P VNone.
Hypothesis HBool : forall b, P (VBool b).
Hypothesis HInt : forall z, P (VInt z).
Hypothesis HFloat : forall f, P (VFloat f).
Hypothesis HStr : forall s, P (VStr s).
Hypothesis HList : forall l, Forall P l -> P (VList l).
Hypothesis HArray : forall a, P (VArray a).

Fixpoint pyval_nested_ind (v : pyval) : P v :=
  match v with
  | VNone => HNone
  | VBool b => HBool b
  | VInt z => HInt z
  | VFloat f => HFloat f
  | VStr s => HStr s
  | VList l =>
      HList l
        ((fix items (l : list pyval) : Forall P l :=
            match l with
            | [] => Forall_nil P
            | x :: xs => Forall_cons x (pyval_nested_ind x) (items xs)
            end) l)
  | VArray a => HArray a
  end.
End pyval_induction.

(** ** Outcomes of a call *)

Inductive exn := AttributeError | TypeError | ValueError | ZeroDivisionError.

Inductive outcome (A : Type) :=
| Returns (a : A)
| Raises (e : exn)
| Unmodelled.
Arguments Returns {A} a.
Arguments Raises {A} e.
Arguments Unmodelled {A}.

Definition bind {A B} (c : outcome A) (k : A -> outcome B) : outcome B :=
  match c with
  | Returns a => k a
  | Raises e => Raises e
  | Unmodelled => Unmodelled
  end.

Notation "x <- c ;; k" := (bind c (fun x => k))
  (at level 61, c at next level, right associativity).

(** ** The builtins the module uses *)

(** [isinstance(value, numbers.Integral)]: [int] and its subclass [bool] are
    registered; no other modelled type is. *)
Definition isinstance_Integral (v : pyval) : bool :=
  match v with
  | VInt _ | VBool _ => true
  | _ => false
  end.

(** [int(value)] on the Integral builtins; the module calls it on nothing
    else, the [isinstance] test being evaluated first. *)
Definition py_int (v : pyval) : outcome Z :=
  match v with
  | VInt z => Returns z
  | VBool b => Returns (if b then 1 else 0)
  | _ => Unmodelled
  end.

(** Exact comparison of a float with an integer, as [float.__lt__] and its
    siblings do it; [None] for NaN, which is unordered. *)
Definition float_cmp_Z (f : float) (z : Z) : option comparison :=
  match Prim2SF f with
  | S754_nan => None
  | S754_zero _ => Some (0 ?= z)
  | S754_infinity s => Some (if s then Lt else Gt)
  | S754_finite s m e =>
      let sm := if s then Z.neg m else Z.pos m in
      Some (if 0 <=? e then sm * 2 ^ e ?= z else sm ?= z * 2 ^ (- e))
  end.

(** Ordering of a value against an [int], as the range test of
    [CyclicGroup.validate] uses it: numbers compare by value; [str],
    [list] and [None] are not orderable against an [int]; an array answers
    element-wise, and the truth value the chained comparison takes of that
    answer is refused by numpy with [ValueError] as soon as the array has
    more than one item (smaller arrays are not modelled). *)
Definition cmp_with_int (v : pyval) (z : Z) : outcome (option comparison) :=
  match v with
  | VInt x => Returns (Some (x ?= z))
  | VBool b => Returns (Some ((if b then 1 else 0) ?= z))
  | VFloat f => Returns (float_cmp_Z f z)
  | VNone | VStr _ | VList _ => Raises TypeError
  | VArray a => if (2 <=? size a)%nat then Raises ValueError else Unmodelled
  end.

(** [lo <= value < hi] with [int] bounds: a chained comparison, the second
    test evaluated only when the first holds. *)
Definition chained_le_lt (lo : Z) (v : pyval) (hi : Z) : outcome bool :=
  c <- cmp_with_int v lo ;;
  match c with
  | Some Gt | Some Eq =>
      d <- cmp_with_int v hi ;;
      Returns (match d with Some Lt => true | _ => false end)
  | _ => Returns false
  end.

(** [str] of an [int], which is also what an f-string field prints. *)
Definition str_int (z : Z) : string := NilZero.string_of_int (Z.to_int z).

(** ** Classes and instances *)

Inductive group_class :=
| CyclicGroup
| Group
| CyclicGroupInherit
| GeneralLinearGroup.

(** [type(self).__name__] *)
Definition __name__ (c : group_class) : string :=
  match c with
  | CyclicGroup => "CyclicGroup"
  | Group => "Group"
  | CyclicGroupInherit => "CyclicGroupInherit"
  | GeneralLinearGroup => "GeneralLinearGroup"
  end.

(** The names each class body binds, in source order. *)
Definition class_body (c : group_class) : list string :=
  match c with
  | CyclicGroup =>
      ["__init__"; "validate"; "operation"; "__call__"; "__str__"; "__repr__"]
  | Group => ["__init__"; "__call__"; "__str__"; "__repr__"]
  | CyclicGroupInherit => ["symbol"; "_validate"; "operation"]
  | GeneralLinearGroup => ["symbol"; "_validate"; "operation"]
  end.

(** Method resolution order, [object] left out. *)
Definition mro (c : group_class) : list group_class :=
  match c with
  | CyclicGroup => [CyclicGroup]
  | Group => [Group]
  | CyclicGroupInherit => [CyclicGroupInherit; Group]
  | GeneralLinearGroup => [GeneralLinearGroup; Group]
  end.

(** Attribute lookup on the class: the first class of the MRO whose body
    binds [name]; [None] is Python's [AttributeError]. *)
Definition resolve (c : group_class) (name : string) : option group_class :=
  find (fun k => existsb (String.eqb name) (class_body k)) (mro c).

(** A group object: its class and the parameter its [__init__] stored
    ([self.order] in [CyclicGroup], [self.n] in [Group]). *)
Record group_instance := mk_group { class_of : group_class; n : Z }.

Definition order (self : group_instance) : Z := n self.

(** The class an element was made from: [Element], or a subclass declared
    with an empty body (the comment in [Element.__repr__] anticipates
    them). *)
Inductive element_class :=
| Element
| ElementSubclass (name : string).

Definition element_name (t : element_class) : string :=
  match t with
  | Element => "Element"
  | ElementSubclass name => name
  end.

Record element := mk_element {
  type_of : element_class;
  group : group_instance;
  value : pyval
}.

(** ** CyclicGroup *)

(** [[
    def validate(self, value):
        if not isinstance(value, Integral) and 0 <= value < self.order:
            raise ValueError(...)
    ]]
    [not] binds tighter than [and]. *)
Definition CyclicGroup_validate (self : group_instance) (v : pyval)
  : outcome unit :=
  c <- (if negb (isinstance_Integral v)
        then chained_le_lt 0 v (order self)
        else Returns false) ;;
  if c then Raises ValueError else Returns tt.

(** [[
    def operation(self, a, b):
        return (a + b) % self.order
    ]]
    [+] on the Integral builtins is integer addition ([bool] counts as 0 or
    1) and yields an [int]. *)
Definition py_add (a b : pyval) : outcome pyval :=
  if isinstance_Integral a && isinstance_Integral b
  then x <- py_int a ;; y <- py_int b ;; Returns (VInt (x + y))
  else Unmodelled.

(** [x % m] for an [int] modulus: the result takes the sign of [m], and a
    zero modulus raises. *)
Definition py_mod (x : pyval) (m : Z) : outcome pyval :=
  if isinstance_Integral x
  then i <- py_int x ;;
       if m =? 0 then Raises ZeroDivisionError else Returns (VInt (i mod m))
  else Unmodelled.

Definition CyclicGroup_operation (self : group_instance) (a b : pyval)
  : outcome pyval :=
  s <- py_add a b ;; py_mod s (order self).

(** [f"C{self.order}"] *)
Definition CyclicGroup___str__ (self : group_instance) : outcome string :=
  Returns ("C" ++ str_int (order self)).

(** [f"{type(self).__name__}({self.order!r})"] *)
Definition CyclicGroup___repr__ (self : group_instance) : outcome string :=
  Returns (__name__ (class_of self) ++ "(" ++ str_int (order self) ++ ")").

(** ** Group and CyclicGroupInherit *)

(** The class attribute [symbol], looked up through the instance. *)
Definition symbol (self : group_instance) : outcome string :=
  match resolve (class_of self) "symbol" with
  | Some CyclicGroupInherit => Returns "C"
  | Some GeneralLinearGroup => Returns "G"
  | Some _ => Unmodelled
  | None => Raises AttributeError
  end.

(** [f"{self.symbol}{self.n}"] *)
Definition Group___str__ (self : group_instance) : outcome string :=
  s <- symbol self ;; Returns (s ++ str_int (n self)).

(** [f"{type(self).__name__}({self.n!r})"] *)
Definition Group___repr__ (self : group_instance) : outcome string :=
  Returns (__name__ (class_of self) ++ "(" ++ str_int (n self) ++ ")").

(** [[
    def _validate(self, value):
        if not (isinstance(value, Integral) and 0 <= int(value) < self.n):
            raise ValueError(...)
    ]] *)
Definition CyclicGroupInherit__validate (self : group_instance) (v : pyval)
  : outcome unit :=
  c <- (if isinstance_Integral v
        then i <- py_int v ;; Returns ((0 <=? i) && (i <? n self))
        else Returns false) ;;
  if negb c then Raises ValueError else Returns tt.

(** [return (a + b) % self.n] *)
Definition CyclicGroupInherit_operation (self : group_instance) (a b : pyval)
  : outcome pyval :=
  s <- py_add a b ;; py_mod s (n self).

(** ** The numpy calls of GeneralLinearGroup *)

(** The largest number of dimensions an array may have (64 since numpy 2.0,
    32 before); no result below depends on the value beyond its being at
    least 2. *)
Definition NPY_MAXDIMS : nat := 64.

Definition shape_eqb (s t : list nat) : bool :=
  if list_eq_dec Nat.eq_dec s t then true else false.

(** The dimensions [np.asarray] discovers.  A scalar is 0-dimensional, an
    array keeps its shape, and a list gets its length in front of the shape
    its items share; items of differing shapes make the request
    inhomogeneous, which numpy refuses with [ValueError]. *)
Fixpoint discover_shape (v : pyval) : outcome (list nat) :=
  match v with
  | VList l =>
      match l with
      | [] => Returns [0%nat]
      | x :: xs =>
          s <- discover_shape x ;;
          if forallb
               (fun y =>
                  match discover_shape y with
                  | Returns t => shape_eqb s t
                  | _ => false
                  end) xs
          then Returns (List.length l :: s)
          else Raises ValueError
      end
  | VArray a => Returns (shape a)
  | _ => Returns []
  end.

(** [np.asarray(value).shape]; nesting deeper than [NPY_MAXDIMS] is refused
    with [ValueError] as well. *)
Definition np_asarray_shape (v : pyval) : outcome (list nat) :=
  s <- discover_shape v ;;
  if (List.length s <=? NPY_MAXDIMS)%nat then Returns s else Raises ValueError.

(** [shape == (r, c)]: equality of a tuple of dimensions with a pair of
    [int]s. *)
Definition shape_is (s : list nat) (r c : Z) : bool :=
  match s with
  | [x; y] => (Z.of_nat x =? r) && (Z.of_nat y =? c)
  | _ => false
  end.

(** Two's-complement wrap-around of int64 arithmetic. *)
Definition wrap64 (z : Z) : Z := (z + 2 ^ 63) mod 2 ^ 64 - 2 ^ 63.

(** Item [(i, j)] of a 2-dimensional array with [cols] columns. *)
Definition item (a : ndarray) (cols i j : nat) : Z :=
  nth (i * cols + j) (data a) 0.

(** The inner loop of the integer matrix product: the sum over [t < k] of
    [a[i, t] * b[t, j]], accumulated from 0 in int64. *)
Definition dot (k c : nat) (a b : ndarray) (i j : nat) : Z :=
  fold_left (fun acc t => wrap64 (acc + wrap64 (item a k i t * item b c t j)))
            (seq 0 k) 0.

(** The product of an [r x k] and a [k x c] array. *)
Definition matmul2 (r k c : nat) (a b : ndarray) : ndarray :=
  mk_ndarray [r; c]
    (flat_map (fun i => map (fun j => dot k c a b i j) (seq 0 c)) (seq 0 r)).

(** [np.matmul] on two arrays: 2-dimensional operands multiply when the
    inner dimensions agree, and a 0-dimensional operand is refused; vector
    and stacked operands are not modelled. *)
Definition np_matmul (a b : ndarray) : outcome ndarray :=
  match shape a, shape b with
  | [], _ | _, [] => Raises ValueError
  | [r; k], [k'; c] =>
      if (k =? k')%nat then Returns (matmul2 r k c a b) else Raises ValueError
  | _, _ => Unmodelled
  end.

(** [a @ b].  Among the modelled types only arrays implement [__matmul__]
    and [__rmatmul__], so the builtins raise [TypeError]; an array against
    a non-array operand makes numpy coerce that operand, which is not
    modelled. *)
Definition py_matmul (a b : pyval) : outcome pyval :=
  match a, b with
  | VArray x, VArray y => r <- np_matmul x y ;; Returns (VArray r)
  | VArray _, _ | _, VArray _ => Unmodelled
  | _, _ => Raises TypeError
  end.

(** ** GeneralLinearGroup *)

(** [[
    def _validate(self, value):
        value = np.asarray(value)
        if not (value.shape == (self.n, self.n)):
            raise ValueError(...)
    ]]
    The coerced array is local to the method: the caller keeps the value it
    passed. *)
Definition GeneralLinearGroup__validate (self : group_instance) (v : pyval)
  : outcome unit :=
  s <- np_asarray_shape v ;;
  if negb (shape_is s (n self) (n self)) then Raises ValueError
  else Returns tt.

(** [return a @ b] *)
Definition GeneralLinearGroup_operation (self : group_instance) (a b : pyval)
  : outcome pyval :=
  py_matmul a b.

(** ** Method calls through an instance *)

(** The calls an element makes on its owning group, in order. *)
Inductive call :=
| call__validate (g : group_instance) (v : pyval)
| call_operation (g : group_instance) (a b : pyval).

(** A computation together with the calls it made. *)
Definition traced (A : Type) : Type := list call * outcome A.

Definition tret {A} (a : A) : traced A := ([], Returns a).

Definition tbind {A B} (c : traced A) (k : A -> traced B) : traced B :=
  match c with
  | (log, Returns a) => let (log', r) := k a in ((log ++ log')%list, r)
  | (log, Raises e) => (log, Raises e)
  | (log, Unmodelled) => (log, Unmodelled)
  end.

Notation "x <~ c ;; k" := (tbind c (fun x => k))
  (at level 61, c at next level, right associativity).

(** An attribute lookup or other step that calls nothing on the group. *)
Definition quiet {A} (o : outcome A) : traced A := ([], o).

(** A call on the group, recorded with its outcome. *)
Definition record {A} (c : call) (o : outcome A) : traced A := ([c], o).

(** [group._validate]: the bound method, or [AttributeError]. *)
Definition getattr__validate (g : group_instance)
  : outcome (pyval -> outcome unit) :=
  match resolve (class_of g) "_validate" with
  | Some CyclicGroupInherit => Returns (CyclicGroupInherit__validate g)
  | Some GeneralLinearGroup => Returns (GeneralLinearGroup__validate g)
  | Some _ => Unmodelled
  | None => Raises AttributeError
  end.

(** [group.operation]: the bound method, or [AttributeError]. *)
Definition getattr_operation (g : group_instance)
  : outcome (pyval -> pyval -> outcome pyval) :=
  match resolve (class_of g) "operation" with
  | Some CyclicGroup => Returns (CyclicGroup_operation g)
  | Some CyclicGroupInherit => Returns (CyclicGroupInherit_operation g)
  | Some GeneralLinearGroup => Returns (GeneralLinearGroup_operation g)
  | Some _ => Unmodelled
  | None => Raises AttributeError
  end.

(** [group.validate], which only [CyclicGroup] binds. *)
Definition getattr_validate (g : group_instance)
  : outcome (pyval -> outcome unit) :=
  match resolve (class_of g) "validate" with
  | Some CyclicGroup => Returns (CyclicGroup_validate g)
  | Some _ => Unmodelled
  | None => Raises AttributeError
  end.

(** [str(group)] and [repr(group)]: every class of the module binds or
    inherits both. *)
Definition str_group (g : group_instance) : outcome string :=
  match resolve (class_of g) "__str__" with
  | Some CyclicGroup => CyclicGroup___str__ g
  | Some Group => Group___str__ g
  | _ => Unmodelled
  end.

Definition repr_group (g : group_instance) : outcome string :=
  match resolve (class_of g) "__repr__" with
  | Some CyclicGroup => CyclicGroup___repr__ g
  | Some Group => Group___repr__ g
  | _ => Unmodelled
  end.

(** ** Text of values *)

(** A character that [repr] of a [str] prints as itself between single
    quotes: printable ASCII other than the quote and the backslash. *)
Definition plain_char (c : ascii) : bool :=
  let k := nat_of_ascii c in
  ((32 <=? k) && (k <=? 126) && negb (k =? 39) && negb (k =? 92))%nat.

Definition plain_string (s : string) : bool :=
  forallb plain_char (list_ascii_of_string s).

(** [repr(value)].  The digits of a float, the escapes of a string and
    numpy's layout of an array are not modelled. *)
Fixpoint py_repr (v : pyval) : outcome string :=
  match v with
  | VNone => Returns "None"
  | VBool b => Returns (if b then "True" else "False")
  | VInt z => Returns (str_int z)
  | VStr s =>
      if plain_string s then Returns ("'" ++ s ++ "'") else Unmodelled
  | VList l =>
      s <- (fix items (l : list pyval) : outcome string :=
              match l with
              | [] => Returns ""
              | [x] => py_repr x
              | x :: xs =>
                  a <- py_repr x ;; b <- items xs ;; Returns (a ++ ", " ++ b)
              end) l ;;
      Returns ("[" ++ s ++ "]")
  | VFloat _ | VArray _ => Unmodelled
  end.

(** What a bare f-string field prints: [str(value)], which is the text
    itself for a [str] and [repr] for the other builtins. *)
Definition py_str (v : pyval) : outcome string :=
  match v with
  | VStr s => Returns s
  | _ => py_repr v
  end.

(** ** Element *)

(** [[
    def __init__(self, group, value):
        group._validate(value)
        self.group = group
        self.value = value
    ]]
    [t] is the class being instantiated. *)
Definition Element___init__ (t : element_class) (g : group_instance)
  (v : pyval) : traced element :=
  _validate <~ quiet (getattr__validate g) ;;
  _ <~ record (call__validate g v) (_validate v) ;;
  tret (mk_element t g v).

(** [[
    def __mul__(self, other):
        return type(self)(self.group,
                          self.group.operation(self.value, other.value))
    ]] *)
Definition Element___mul__ (self other : element) : traced element :=
  operation <~ quiet (getattr_operation (group self)) ;;
  r <~ record (call_operation (group self) (value self) (value other))
              (operation (value self) (value other)) ;;
  Element___init__ (type_of self) (group self) r.

(** [f"{self.value}_{self.group}"] *)
Definition Element___str__ (self : element) : outcome string :=
  v <- py_str (value self) ;;
  g <- str_group (group self) ;;
  Returns (v ++ "_" ++ g).

(** [f"{type(self).__name__}({self.group!r}, {self.value!r})"] *)
Definition Element___repr__ (self : element) : outcome string :=
  g <- repr_group (group self) ;;
  v <- py_repr (value self) ;;
  Returns (element_name (type_of self) ++ "(" ++ g ++ ", " ++ v ++ ")").

(** ** Calling a group *)

(** [return Element(self, value)] *)
Definition CyclicGroup___call__ (self : group_instance) (v : pyval)
  : traced element :=
  Element___init__ Element self v.

(** [return Element(self, value)] *)
Definition Group___call__ (self : group_instance) (v : pyval)
  : traced element :=
  Element___init__ Element self v.

(** [group(value)] *)
Definition call_group (g : group_instance) (v : pyval) : traced element :=
  match resolve (class_of g) "__call__" with
  | Some CyclicGroup => CyclicGroup___call__ g v
  | Some Group => Group___call__ g v
  | _ => quiet Unmodelled
  end.

(** What a call left behind. *)
Definition calls {A} (c : traced A) : list call := fst c.
Definition result {A} (c : traced A) : outcome A := snd c.

(** ** Method calls as the callers write them *)

(** [g._validate(v)], [g.validate(v)] and [g.operation(a, b)]: lookup, then
    call. *)
Definition group__validate (g : group_instance) (v : pyval) : outcome unit :=
  f <- getattr__validate g ;; f v.

Definition group_validate (g : group_instance) (v : pyval) : outcome unit :=
  f <- getattr_validate g ;; f v.

Definition group_operation (g : group_instance) (a b : pyval)
  : outcome pyval :=
  f <- getattr_operation g ;; f a b.

(** [a == b] between Integral builtins, which compare by value; the other
    types are not needed below. *)
Definition py_eq (a b : pyval) : outcome bool :=
  if isinstance_Integral a && isinstance_Integral b
  then x <- py_int a ;; y <- py_int b ;; Returns (x =? y)
  else Unmodelled.

(** Create elements for [x] and [y] by calling the group, combine them, and
    print the product. *)
Definition combine_and_show (g : group_instance) (x y : pyval)
  : traced (element * string) :=
  a <~ call_group g x ;;
  b <~ call_group g y ;;
  c <~ Element___mul__ a b ;;
  s <~ quiet (Element___str__ c) ;;
  tret (c, s).

(** ** The properties, in the words of the specification *)

(** Membership in the cyclic group of order [m]: the value is an integer
    ([bool] being a subtype of [int] in Python) and [0 <= value < m]. *)
Definition cyclic_member (m : Z) (v : pyval) : bool :=
  match v with
  | VInt z => (0 <=? z) && (z <? m)
  | VBool b => let z := if b then 1 else 0 in (0 <=? z) && (z <? m)
  | _ => false
  end.

(** Every scalar of the value is a number. *)
Fixpoint numeric (v : pyval) : bool :=
  match v with
  | VBool _ | VInt _ | VFloat _ | VArray _ => true
  | VList l => forallb numeric l
  | VNone | VStr _ => false
  end.

(** The value coerces to an array of shape [m x m]. *)
Definition coerces_to_square (m : Z) (v : pyval) : Prop :=
  exists s, np_asarray_shape v = Returns s /\ shape_is s m m = true.

(** The value coerces to a numeric array of shape [m x m]. *)
Definition coerces_to_square_numeric (m : Z) (v : pyval) : Prop :=
  coerces_to_square m v /\ numeric v = true.

(** Combination that returns the product without validating it again. *)
Definition combines_unchecked (self other : element) : Prop :=
  exists v,
    group_operation (group self) (value self) (value other) = Returns v /\
    result (Element___mul__ self other)
    = Returns (mk_element (type_of self) (group self) v) /\
    ~ In (call__validate (group self) v) (calls (Element___mul__ self other)).

(** Closure at [a], [b]: the operation returns, and what it returns passes
    the group's validation. *)
Definition closed_at (g : group_instance) (a b : pyval) : Prop :=
  exists r,
    group_operation g a b = Returns r /\ group__validate g r = Returns tt.

(** Associativity at [a], [b], [c]: both bracketings return, and return
    the same value. *)
Definition associative_at (g : group_instance) (a b c : pyval) : Prop :=
  exists r,
    (ab <- group_operation g a b ;; group_operation g ab c) = Returns r /\
    (bc <- group_operation g b c ;; group_operation g a bc) = Returns r.

Definition is_array (v : pyval) : bool :=
  match v with
  | VArray _ => true
  | _ => false
  end.

(** The exact sum of [f] over a list of indices. *)
Definition zsum (f : nat -> Z) (l : list nat) : Z :=
  fold_right (fun t acc => f t + acc) 0 l.

(** ** Sample objects *)

Definition CG5 : group_instance := mk_group CyclicGroup 5.
Definition CG7 : group_instance := mk_group CyclicGroup 7.
Definition CI5 : group_instance := mk_group CyclicGroupInherit 5.
Definition CI7 : group_instance := mk_group CyclicGroupInherit 7.
Definition GL2 : group_instance := mk_group GeneralLinearGroup 2.

(** [[1, 0], [0, 1]] as nested lists and as an array. *)
Definition identity_rows : pyval :=
  VList [VList [VInt 1; VInt 0]; VList [VInt 0; VInt 1]].
Definition identity_array : pyval :=
  VArray (mk_ndarray [2; 2]%nat [1; 0; 0; 1]).

(** [["a", "b"], ["c", "d"]] *)
Definition letters : pyval :=
  VList [VList [VStr "a"; VStr "b"]; VList [VStr "c"; VStr "d"]].

(** A 3 x 3 and a 2 x 3 nested list. *)
Definition three_by_three : pyval :=
  VList [VList [VInt 1; VInt 0; VInt 0];
         VList [VInt 0; VInt 1; VInt 0];
         VList [VInt 0; VInt 0; VInt 1]].
Definition two_by_three : pyval :=
  VList [VList [VInt 1; VInt 2; VInt 3]; VList [VInt 4; VInt 5; VInt 6]].

(** The same two as arrays. *)
Definition three_by_three_array : pyval :=
  VArray (mk_ndarray [3; 3]%nat [1; 0; 0; 0; 1; 0; 0; 0; 1]).
Definition two_by_three_array : pyval :=
  VArray (mk_ndarray [2; 3]%nat [1; 2; 3; 4; 5; 6]).

Definition e3 : element := mk_element Element CI7 (VInt 3).
Definition e5 : element := mk_element Element CI7 (VInt 5).

(** ** Further vocabulary for the statements *)

(** A value [np.asarray] takes as a single item. *)
Definition is_scalar (v : pyval) : bool :=
  match v with
  | VList _ | VArray _ => false
  | _ => true
  end.

(** A list of exactly [c] scalars. *)
Definition is_row (c : nat) (v : pyval) : bool :=
  match v with
  | VList items => (List.length items =? c)%nat && forallb is_scalar items
  | _ => false
  end.

(** An array of fewer than two items. *)
Definition small_array (v : pyval) : bool :=
  match v with
  | VArray a => (size a <? 2)%nat
  | _ => false
  end.

(** The range of an int64 item. *)
Definition int64 (z : Z) : Prop := - 2 ^ 63 <= z < 2 ^ 63.

(** The letter each class prints in front of its parameter: [CyclicGroup]
    writes it in its [__str__], the subclasses of [Group] bind [symbol],
    and [Group] itself binds none. *)
Definition letter (c : group_class) : option string :=
  match c with
  | CyclicGroup | CyclicGroupInherit => Some "C"
  | GeneralLinearGroup => Some "G"
  | Group => None
  end.

(** [(x * y) * z] and [x * (y * z)] on elements. *)
Definition mul_left (x y z : element) : traced element :=
  xy <~ Element___mul__ x y ;; Element___mul__ xy z.

Definition mul_right (x y z : element) : traced element :=
  yz <~ Element___mul__ y z ;; Element___mul__ x yz.

(** * Properties *)

(** ** Attribute lookup *)

Lemma resolve__validate (c : group_class) :
  resolve c "_validate"
  = match c with
    | CyclicGroupInherit => Some CyclicGroupInherit
    | GeneralLinearGroup => Some GeneralLinearGroup
    | _ => None
    end.
Proof. destruct c; reflexivity. Qed.

Lemma resolve_operation (c : group_class) :
  resolve c "operation"
  = match c with
    | Group => None
    | k => Some k
    end.
Proof. destruct c; reflexivity. Qed.

Lemma group__validate_class (g : group_instance) (v : pyval) :
  group__validate g v = Returns tt ->
  class_of g = CyclicGroupInherit \/ class_of g = GeneralLinearGroup.
Proof.
  unfold group__validate, getattr__validate.
  rewrite resolve__validate.
  destruct (class_of g); simpl; auto; discriminate.
Qed.

Lemma group__validate_cyclic (g : group_instance) (v : pyval) :
  class_of g = CyclicGroupInherit ->
  group__validate g v = CyclicGroupInherit__validate g v.
Proof.
  intros Hc. unfold group__validate, getattr__validate.
  rewrite resolve__validate, Hc. reflexivity.
Qed.

Lemma group__validate_linear (g : group_instance) (v : pyval) :
  class_of g = GeneralLinearGroup ->
  group__validate g v = GeneralLinearGroup__validate g v.
Proof.
  intros Hc. unfold group__validate, getattr__validate.
  rewrite resolve__validate, Hc. reflexivity.
Qed.

(** ** Validation in the cyclic classes *)

(** [CyclicGroupInherit._validate] accepts exactly the members and rejects
    everything else with [ValueError]. *)
Lemma CyclicGroupInherit__validate_member (g : group_instance) (v : pyval) :
  CyclicGroupInherit__validate g v
  = if cyclic_member (n g) v then Returns tt else Raises ValueError.
Proof.
  unfold CyclicGroupInherit__validate.
  destruct v as [ | b | z | f | s | l | a ]; simpl; try reflexivity.
  - destruct b; simpl; destruct (1 <? n g); destruct (0 <? n g); reflexivity.
  - destruct ((0 <=? z) && (z <? n g)); reflexivity.
Qed.

Lemma cyclic_member_int (m : Z) (v : pyval) :
  cyclic_member m v = true ->
  exists z, py_int v = Returns z /\ isinstance_Integral v = true /\
            0 <= z < m.
Proof.
  destruct v as [ | b | z | f | s | l | a ]; simpl; try discriminate.
  - intros H. exists (if b then 1 else 0). repeat split; lia.
  - intros H. exists z. repeat split; lia.
Qed.

(** [CyclicGroup.validate] lets every [int] through, whatever the order. *)
Lemma CyclicGroup_validate_int (g : group_instance) (z : Z) :
  CyclicGroup_validate g (VInt z) = Returns tt.
Proof. reflexivity. Qed.

(** C2.  [CyclicGroup(5).validate] returns on 0 and 4 and raises
    [ValueError] on 2.5, but it also returns on -1 and on 5, which are
    outside [0, 5): the test [not isinstance(...) and ...] is false for
    every integer.  [CyclicGroupInherit(5)._validate] rejects both. *)
Theorem CyclicGroup_validate_boundary :
  group_validate CG5 (VInt 0) = Returns tt /\
  group_validate CG5 (VInt 4) = Returns tt /\
  group_validate CG5 (VFloat 2.5) = Raises ValueError /\
  group_validate CG5 (VInt (-1)) = Returns tt /\
  group_validate CG5 (VInt 5) = Returns tt /\
  cyclic_member 5 (VInt (-1)) = false /\
  cyclic_member 5 (VInt 5) = false /\
  group__validate CI5 (VInt (-1)) = Raises ValueError /\
  group__validate CI5 (VInt 5) = Raises ValueError.
Proof. repeat split; reflexivity. Qed.

(** ** Creating elements *)

Lemma Element___init___accepts (t : element_class) (g : group_instance)
  (v : pyval) :
  group__validate g v = Returns tt ->
  Element___init__ t g v = ([call__validate g v], Returns (mk_element t g v)).
Proof.
  unfold group__validate, Element___init__.
  destruct (getattr__validate g) as [f | e | ]; simpl; try discriminate.
  intros ->. reflexivity.
Qed.

Lemma Element___init___rejects (t : element_class) (g : group_instance)
  (v : pyval) (e : exn) :
  group__validate g v = Raises e ->
  result (Element___init__ t g v) = Raises e.
Proof.
  unfold group__validate, Element___init__.
  destruct (getattr__validate g) as [f | e' | ]; simpl; try discriminate.
  - intros ->. reflexivity.
  - intros H. injection H as ->. reflexivity.
Qed.

(** C3.  Calling an instance of [CyclicGroup] raises [AttributeError] for
    every order and every value, before anything is validated:
    [Element.__init__] asks the group for [_validate], and the class binds
    [validate] only. *)
Theorem CyclicGroup_call_AttributeError (m : Z) (v : pyval) :
  resolve CyclicGroup "_validate" = None /\
  resolve CyclicGroup "validate" = Some CyclicGroup /\
  call_group (mk_group CyclicGroup m) v = ([], Raises AttributeError).
Proof. repeat split; reflexivity. Qed.

(** C4.  With the class named [CyclicGroup] the scenario stops at the first
    element, which cannot be created; with [CyclicGroupInherit] it yields
    the element of value 1, printed as ["1_C7"]. *)
Theorem cyclic_scenario :
  result (combine_and_show CG7 (VInt 3) (VInt 5)) = Raises AttributeError /\
  result (combine_and_show CI7 (VInt 3) (VInt 5))
  = Returns (mk_element Element CI7 (VInt 1), "1_C7").
Proof. split; reflexivity. Qed.

(** ** Combination *)

(** C1, as the code has it.  [__mul__] calls the group's operation and hands
    the product to the constructor of the left operand's class, which
    validates it: when the product passes, the new element of that class
    holding it is returned, after exactly one [operation] and one
    [_validate] call; when it is rejected, [__mul__] raises the error of
    the validation. *)
Theorem Element___mul___validates (self other : element) (v : pyval) :
  group_operation (group self) (value self) (value other) = Returns v ->
  (group__validate (group self) v = Returns tt ->
   Element___mul__ self other
   = ([call_operation (group self) (value self) (value other);
       call__validate (group self) v],
      Returns (mk_element (type_of self) (group self) v))) /\
  (forall e, group__validate (group self) v = Raises e ->
             result (Element___mul__ self other) = Raises e).
Proof.
  unfold group_operation, Element___mul__.
  destruct (getattr_operation (group self)) as [op | e | ];
    simpl; try discriminate.
  intros ->. split.
  - intros Hv. rewrite (Element___init___accepts _ _ _ Hv). reflexivity.
  - intros e He.
    pose proof (Element___init___rejects (type_of self) _ _ _ He) as Hr.
    destruct (Element___init__ (type_of self) (group self) v) as [log r].
    simpl in *. exact Hr.
Qed.

Lemma Element___mul___validates_witness :
  Element___mul__ e3 e5
  = ([call_operation CI7 (VInt 3) (VInt 5); call__validate CI7 (VInt 1)],
     Returns (mk_element Element CI7 (VInt 1))).
Proof.
  apply (proj1 (Element___mul___validates e3 e5 (VInt 1) eq_refl)).
  reflexivity.
Defined.

(** C1, as it is worded, fails on 3 and 5 in [CyclicGroupInherit(7)]: the
    product 1 is validated while the elements are combined. *)
Lemma combines_unchecked_fails : ~ combines_unchecked e3 e5.
Proof.
  intros [v [Hop [_ Hno]]].
  assert (v = VInt 1) as -> by (vm_compute in Hop; congruence).
  apply Hno. right. left. reflexivity.
Qed.

(** ** Debug representations *)

Lemma repr_group_format (g : group_instance) :
  repr_group g
  = Returns (__name__ (class_of g) ++ "(" ++ str_int (n g) ++ ")").
Proof. destruct g as [[ | | | ] m]; reflexivity. Qed.

(** C7.  [repr] of a group is the name of its runtime class applied to the
    parameter, whichever class of the module it is; [repr] of an element is
    the name of its own runtime class applied to the group's [repr] and the
    value's [repr]. *)
Theorem debug_representation :
  (forall g : group_instance,
      repr_group g
      = Returns (__name__ (class_of g) ++ "(" ++ str_int (n g) ++ ")")) /\
  (forall e : element,
      Element___repr__ e
      = (v <- py_repr (value e) ;;
         Returns (element_name (type_of e) ++ "("
                  ++ (__name__ (class_of (group e)) ++ "("
                      ++ str_int (n (group e)) ++ ")")
                  ++ ", " ++ v ++ ")"))) /\
  repr_group CG5 = Returns "CyclicGroup(5)" /\
  repr_group CI5 = Returns "CyclicGroupInherit(5)" /\
  repr_group GL2 = Returns "GeneralLinearGroup(2)" /\
  Element___repr__ e3 = Returns "Element(CyclicGroupInherit(7), 3)" /\
  Element___repr__ (mk_element (ElementSubclass "Residue") CI7 (VInt 3))
  = Returns "Residue(CyclicGroupInherit(7), 3)" /\
  Element___repr__ (mk_element Element GL2 letters)
  = Returns "Element(GeneralLinearGroup(2), [['a', 'b'], ['c', 'd']])".
Proof.
  split; [exact repr_group_format | split]; [ | repeat split; reflexivity].
  intros e. unfold Element___repr__. rewrite repr_group_format. reflexivity.
Qed.

(** ** The cyclic operation *)

Lemma cyclic_operation_int (c : group_class) (m x y : Z) (a b : pyval) :
  c = CyclicGroup \/ c = CyclicGroupInherit ->
  isinstance_Integral a = true -> py_int a = Returns x ->
  isinstance_Integral b = true -> py_int b = Returns y ->
  m <> 0 ->
  group_operation (mk_group c m) a b = Returns (VInt ((x + y) mod m)).
Proof.
  intros Hc Ha Hx Hb Hy Hm.
  assert (group_operation (mk_group c m) a b
          = (s <- py_add a b ;; py_mod s m)) as ->
      by (destruct Hc as [-> | ->]; reflexivity).
  unfold py_add. rewrite Ha, Hb, Hx, Hy. simpl. unfold py_mod. simpl.
  destruct (Z.eqb_spec m 0); [contradiction | reflexivity].
Qed.

(** C8.  In both cyclic classes 0 is a two-sided identity of [operation] on
    the members of the group: the result equals the member under [==]. *)
Theorem cyclic_identity (c : group_class) (m : Z) (a : pyval) :
  c = CyclicGroup \/ c = CyclicGroupInherit ->
  cyclic_member m a = true ->
  exists l r,
    group_operation (mk_group c m) (VInt 0) a = Returns l /\
    py_eq l a = Returns true /\
    group_operation (mk_group c m) a (VInt 0) = Returns r /\
    py_eq r a = Returns true.
Proof.
  intros Hc Ha.
  destruct (cyclic_member_int _ _ Ha) as [z [Hz [Hi Hr]]].
  exists (VInt z), (VInt z).
  assert (py_eq (VInt z) a = Returns true) as He.
  { unfold py_eq. rewrite Hi, Hz. simpl. now rewrite Z.eqb_refl. }
  repeat split; try exact He.
  - rewrite (cyclic_operation_int c m 0 z (VInt 0) a) by (auto; lia).
    now rewrite Z.add_0_l, Z.mod_small.
  - rewrite (cyclic_operation_int c m z 0 a (VInt 0)) by (auto; lia).
    now rewrite Z.add_0_r, Z.mod_small.
Qed.

Lemma cyclic_identity_witness :
  exists l r,
    group_operation CI5 (VInt 0) (VBool true) = Returns l /\
    py_eq l (VBool true) = Returns true /\
    group_operation CI5 (VBool true) (VInt 0) = Returns r /\
    py_eq r (VBool true) = Returns true.
Proof.
  apply (cyclic_identity CyclicGroupInherit 5 (VBool true)).
  - right. reflexivity.
  - reflexivity.
Defined.

(** ** Validation in the general linear group *)

(** Shape discovery returns a shape or refuses with [ValueError]. *)
Lemma discover_shape_outcome (v : pyval) :
  (exists s, discover_shape v = Returns s) \/
  discover_shape v = Raises ValueError.
Proof.
  induction v as [ | b | z | f | s | l IH | a ] using pyval_nested_ind;
    simpl; try (left; eexists; reflexivity).
  destruct l as [ | x xs]; [left; eexists; reflexivity | ].
  inversion IH as [ | ? ? [[s Hs] | Hs] _]; subst; rewrite Hs; simpl.
  - match goal with |- context [if ?c then _ else _] => destruct c end;
      [left; eexists; reflexivity | right; reflexivity].
  - right; reflexivity.
Qed.

Lemma np_asarray_shape_outcome (v : pyval) :
  (exists s, np_asarray_shape v = Returns s) \/
  np_asarray_shape v = Raises ValueError.
Proof.
  unfold np_asarray_shape.
  destruct (discover_shape_outcome v) as [[s Hs] | Hs]; rewrite Hs; simpl.
  - destruct (List.length s <=? NPY_MAXDIMS)%nat;
      [left; eexists; reflexivity | right; reflexivity].
  - right; reflexivity.
Qed.

Lemma GeneralLinearGroup__validate_shape (g : group_instance) (v : pyval)
  (s : list nat) :
  np_asarray_shape v = Returns s ->
  GeneralLinearGroup__validate g v
  = if shape_is s (n g) (n g) then Returns tt else Raises ValueError.
Proof.
  intros Hs. unfold GeneralLinearGroup__validate. rewrite Hs. simpl.
  destruct (shape_is s (n g) (n g)); reflexivity.
Qed.

Lemma GeneralLinearGroup__validate_accepts (g : group_instance) (v : pyval) :
  GeneralLinearGroup__validate g v = Returns tt <->
  coerces_to_square (n g) v.
Proof.
  split.
  - intros H. destruct (np_asarray_shape_outcome v) as [[s Hs] | Hs].
    + exists s. split; [exact Hs | ].
      rewrite (GeneralLinearGroup__validate_shape g v s Hs) in H.
      destruct (shape_is s (n g) (n g)); [reflexivity | discriminate].
    + unfold GeneralLinearGroup__validate in H. rewrite Hs in H.
      discriminate.
  - intros [s [Hs Hq]].
    rewrite (GeneralLinearGroup__validate_shape g v s Hs), Hq. reflexivity.
Qed.

Lemma GeneralLinearGroup__validate_outcome (g : group_instance) (v : pyval) :
  GeneralLinearGroup__validate g v = Returns tt \/
  GeneralLinearGroup__validate g v = Raises ValueError.
Proof.
  destruct (np_asarray_shape_outcome v) as [[s Hs] | Hs].
  - rewrite (GeneralLinearGroup__validate_shape g v s Hs).
    destruct (shape_is s (n g) (n g)); auto.
  - right. unfold GeneralLinearGroup__validate. rewrite Hs. reflexivity.
Qed.

(** C5, as the code has it.  [GeneralLinearGroup._validate] returns exactly
    when the value coerces to an array of shape [n x n], whatever its
    items are, and raises [ValueError] otherwise; [GeneralLinearGroup(2)]
    accepts the 2 x 2 identity, as nested lists and as an array, and
    rejects a 3 x 3 and a 2 x 3 value. *)
Theorem GeneralLinearGroup__validate_square :
  (forall (g : group_instance) (v : pyval),
      (GeneralLinearGroup__validate g v = Returns tt <->
       coerces_to_square (n g) v) /\
      (GeneralLinearGroup__validate g v = Returns tt \/
       GeneralLinearGroup__validate g v = Raises ValueError)) /\
  group__validate GL2 identity_rows = Returns tt /\
  group__validate GL2 identity_array = Returns tt /\
  group__validate GL2 three_by_three = Raises ValueError /\
  group__validate GL2 two_by_three = Raises ValueError /\
  group__validate GL2 three_by_three_array = Raises ValueError /\
  group__validate GL2 two_by_three_array = Raises ValueError.
Proof.
  split; [ | repeat split; reflexivity].
  intros g v. split.
  - apply GeneralLinearGroup__validate_accepts.
  - apply GeneralLinearGroup__validate_outcome.
Qed.

(** C5, as it is worded, fails on [["a", "b"], ["c", "d"]]: the value is
    accepted by [GeneralLinearGroup(2)] and is not numeric. *)
Lemma square_numeric_fails :
  ~ (GeneralLinearGroup__validate GL2 letters = Returns tt <->
     coerces_to_square_numeric (n GL2) letters).
Proof.
  intros [H _]. destruct (H eq_refl) as [_ Hnum]. discriminate Hnum.
Qed.

(** C10.  Once the value coerces, [GeneralLinearGroup._validate] looks at
    the shape and at nothing else: it raises [ValueError] when the shape
    differs from [(n, n)] and returns otherwise, and on a value it accepts
    calling the group returns an element that wraps the value as it was
    passed. *)
Theorem GeneralLinearGroup__validate_shape_alone (m : Z) (v : pyval)
  (s : list nat) :
  np_asarray_shape v = Returns s ->
  group__validate (mk_group GeneralLinearGroup m) v
  = (if shape_is s m m then Returns tt else Raises ValueError) /\
  (shape_is s m m = true ->
   call_group (mk_group GeneralLinearGroup m) v
   = ([call__validate (mk_group GeneralLinearGroup m) v],
      Returns (mk_element Element (mk_group GeneralLinearGroup m) v))).
Proof.
  intros Hs.
  assert (group__validate (mk_group GeneralLinearGroup m) v
          = if shape_is s m m then Returns tt else Raises ValueError) as Hv.
  { rewrite group__validate_linear by reflexivity.
    now rewrite (GeneralLinearGroup__validate_shape _ v s Hs). }
  split; [exact Hv | ].
  intros Hq. rewrite Hq in Hv.
  change (call_group (mk_group GeneralLinearGroup m) v)
    with (Element___init__ Element (mk_group GeneralLinearGroup m) v).
  now apply Element___init___accepts.
Qed.

Lemma GeneralLinearGroup__validate_shape_alone_witness :
  numeric letters = false /\
  group__validate GL2 letters = Returns tt /\
  call_group GL2 letters
  = ([call__validate GL2 letters], Returns (mk_element Element GL2 letters)).
Proof.
  destruct (GeneralLinearGroup__validate_shape_alone
              2 letters [2; 2]%nat eq_refl) as [Hv Hc].
  split; [reflexivity | split; [exact Hv | exact (Hc eq_refl)]].
Defined.

(** ** The integer matrix product *)

Lemma wrap64_mod (x : Z) : wrap64 x mod 2 ^ 64 = x mod 2 ^ 64.
Proof.
  unfold wrap64.
  rewrite Zminus_mod, Zmod_mod, <- Zminus_mod.
  f_equal. lia.
Qed.

Lemma wrap64_congr (x y : Z) :
  x mod 2 ^ 64 = y mod 2 ^ 64 -> wrap64 x = wrap64 y.
Proof.
  intros H. unfold wrap64.
  rewrite (Zplus_mod x), (Zplus_mod y), H. reflexivity.
Qed.

Lemma wrap64_range (x : Z) : - 2 ^ 63 <= wrap64 x < 2 ^ 63.
Proof.
  unfold wrap64.
  pose proof (Z.mod_pos_bound (x + 2 ^ 63) (2 ^ 64) ltac:(lia)). lia.
Qed.

Lemma zsum_cons (f : nat -> Z) (t : nat) (l : list nat) :
  zsum f (t :: l) = f t + zsum f l.
Proof. reflexivity. Qed.

Section sums.
Variables f g : nat -> Z.

Lemma zsum_ext_in (l : list nat) :
  (forall t, In t l -> f t = g t) -> zsum f l = zsum g l.
Proof.
  induction l as [ | t l IH]; intros H; [reflexivity | ].
  rewrite !zsum_cons, (H t), IH; auto using in_eq, in_cons.
Qed.

Lemma zsum_mod_ext_in (l : list nat) :
  (forall t, In t l -> f t mod 2 ^ 64 = g t mod 2 ^ 64) ->
  zsum f l mod 2 ^ 64 = zsum g l mod 2 ^ 64.
Proof.
  induction l as [ | t l IH]; intros H; [reflexivity | ].
  rewrite !zsum_cons.
  rewrite (Zplus_mod (f t)), (Zplus_mod (g t)).
  rewrite (H t), IH; auto using in_eq, in_cons.
Qed.

Lemma zsum_add (l : list nat) :
  zsum (fun t => f t + g t) l = zsum f l + zsum g l.
Proof.
  induction l as [ | t l IH]; [reflexivity | ].
  rewrite !zsum_cons, IH. lia.
Qed.

Lemma zsum_mul_r (c : Z) (l : list nat) :
  zsum f l * c = zsum (fun t => f t * c) l.
Proof.
  induction l as [ | t l IH]; [reflexivity | ].
  rewrite !zsum_cons, <- IH. lia.
Qed.

Lemma zsum_mul_l (c : Z) (l : list nat) :
  c * zsum f l = zsum (fun t => c * f t) l.
Proof.
  induction l as [ | t l IH]; [apply Z.mul_0_r | ].
  rewrite !zsum_cons, <- IH. lia.
Qed.

(** The int64 accumulation agrees with the exact sum, wrapped once. *)
Lemma fold_wrap64_zsum (l : list nat) (s : Z) :
  fold_left (fun acc t => wrap64 (acc + wrap64 (f t))) l (wrap64 s)
  = wrap64 (s + zsum f l).
Proof.
  revert s. induction l as [ | t l IH]; intros s.
  - cbn [fold_left zsum fold_right]. now rewrite Z.add_0_r.
  - cbn [fold_left]. rewrite zsum_cons.
    rewrite (wrap64_congr (wrap64 s + wrap64 (f t)) (s + f t)).
    + rewrite IH. f_equal. lia.
    + rewrite Zplus_mod, !wrap64_mod, <- Zplus_mod. reflexivity.
Qed.
End sums.

Lemma zsum_zero (l : list nat) : zsum (fun _ => 0) l = 0.
Proof.
  induction l as [ | t l IH]; [reflexivity | ].
  rewrite zsum_cons, IH. reflexivity.
Qed.

Lemma zsum_swap (F : nat -> nat -> Z) (l1 l2 : list nat) :
  zsum (fun t => zsum (fun s => F t s) l2) l1
  = zsum (fun s => zsum (fun t => F t s) l1) l2.
Proof.
  induction l1 as [ | t l1 IH].
  - cbn [zsum fold_right]. symmetry. apply zsum_zero.
  - rewrite zsum_cons, IH, <- zsum_add. reflexivity.
Qed.

Lemma dot_zsum (k c : nat) (a b : ndarray) (i j : nat) :
  dot k c a b i j
  = wrap64 (zsum (fun t => item a k i t * item b c t j) (seq 0 k)).
Proof.
  unfold dot. change 0 with (wrap64 0) at 1.
  now rewrite (fold_wrap64_zsum (fun t => item a k i t * item b c t j)).
Qed.

(** Items of an array built row by row. *)
Lemma nth_rows (f : nat -> nat -> Z) (c r i j s : nat) :
  (i < r)%nat -> (j < c)%nat ->
  nth (i * c + j) (flat_map (fun i => map (f i) (seq 0 c)) (seq s r)) 0
  = f (s + i)%nat j.
Proof.
  revert r s. induction i as [ | i IH]; intros r s Hi Hj;
    (destruct r as [ | r]; [lia | ]); simpl.
  - rewrite app_nth1 by (now rewrite length_map, length_seq).
    rewrite (nth_indep _ 0 (f s 0%nat))
      by (now rewrite length_map, length_seq).
    rewrite map_nth, seq_nth by assumption.
    now rewrite Nat.add_0_r.
  - rewrite app_nth2 by (rewrite length_map, length_seq; lia).
    rewrite length_map, length_seq.
    replace (c + i * c + j - c)%nat with (i * c + j)%nat by lia.
    rewrite IH by lia. f_equal. lia.
Qed.

Lemma item_matmul2 (m : nat) (a b : ndarray) (i j : nat) :
  (i < m)%nat -> (j < m)%nat ->
  item (matmul2 m m m a b) m i j = dot m m a b i j.
Proof.
  intros Hi Hj. unfold item, matmul2. simpl data.
  now rewrite (nth_rows (fun i j => dot m m a b i j)).
Qed.

Lemma flat_map_ext_in {A B} (f g : A -> list B) (l : list A) :
  (forall x, In x l -> f x = g x) -> flat_map f l = flat_map g l.
Proof.
  induction l as [ | x l IH]; simpl; intros H; [reflexivity | ].
  rewrite (H x), IH; auto.
Qed.

(** The product of square int64 arrays is associative, wrap-around
    included. *)
Lemma matmul2_assoc (m : nat) (a b c : ndarray) :
  matmul2 m m m (matmul2 m m m a b) c = matmul2 m m m a (matmul2 m m m b c).
Proof.
  unfold matmul2 at 1 3. f_equal.
  apply flat_map_ext_in. intros i Hi. apply map_ext_in. intros j Hj.
  apply in_seq in Hi. apply in_seq in Hj.
  rewrite !dot_zsum. apply wrap64_congr.
  transitivity
    (zsum (fun t => zsum (fun s => item a m i s * item b m s t * item c m t j)
                         (seq 0 m)) (seq 0 m) mod 2 ^ 64).
  - apply zsum_mod_ext_in. intros t Ht. apply in_seq in Ht.
    rewrite item_matmul2 by lia. rewrite dot_zsum.
    rewrite Zmult_mod, wrap64_mod, <- Zmult_mod.
    now rewrite zsum_mul_r.
  - rewrite zsum_swap. symmetry.
    apply zsum_mod_ext_in. intros s Hs. apply in_seq in Hs.
    rewrite item_matmul2 by lia. rewrite dot_zsum.
    rewrite Zmult_mod, wrap64_mod, <- Zmult_mod.
    rewrite zsum_mul_l. f_equal. apply zsum_ext_in. intros t _. lia.
Qed.

(** The exactness of integer arithmetic matters here: in binary64 already
    the product of three scalars depends on the bracketing. *)
Remark float_product_bracketing :
  PrimFloat.eqb
    ((0x1.999999999999ap-4 * 0x1.999999999999ap-3) * 0x1.3333333333333p-2)
    (0x1.999999999999ap-4 * (0x1.999999999999ap-3 * 0x1.3333333333333p-2))
  = false.
Proof. reflexivity. Qed.

(** ** Closure and associativity *)

Lemma group__validate_member (g : group_instance) (v : pyval) :
  class_of g = CyclicGroupInherit ->
  group__validate g v = Returns tt ->
  cyclic_member (n g) v = true.
Proof.
  intros Hc. rewrite (group__validate_cyclic g v Hc).
  rewrite CyclicGroupInherit__validate_member.
  destruct (cyclic_member (n g) v); [reflexivity | discriminate].
Qed.

Lemma group__validate_square (g : group_instance) (x : ndarray) :
  class_of g = GeneralLinearGroup ->
  group__validate g (VArray x) = Returns tt ->
  exists m : nat, shape x = [m; m]%nat /\ Z.of_nat m = n g.
Proof.
  intros Hc. rewrite (group__validate_linear g _ Hc).
  intros H. apply GeneralLinearGroup__validate_accepts in H.
  destruct H as [s [Hs Hq]].
  unfold np_asarray_shape in Hs. simpl in Hs.
  destruct (List.length (shape x) <=? NPY_MAXDIMS)%nat; [ | discriminate].
  injection Hs as <-.
  destruct (shape x) as [ | r [ | c [ | ? ?]]]; simpl in Hq; try discriminate.
  apply andb_prop in Hq. destruct Hq as [Hr Hk].
  apply Z.eqb_eq in Hr. apply Z.eqb_eq in Hk.
  exists r. split; [ | exact Hr].
  f_equal. f_equal. lia.
Qed.

Lemma square_group__validate (g : group_instance) (x : ndarray) (m : nat) :
  class_of g = GeneralLinearGroup ->
  shape x = [m; m]%nat -> Z.of_nat m = n g ->
  group__validate g (VArray x) = Returns tt.
Proof.
  intros Hc Hs Hm. rewrite (group__validate_linear g _ Hc).
  apply GeneralLinearGroup__validate_accepts.
  exists [m; m]%nat. split.
  - unfold np_asarray_shape. simpl. now rewrite Hs.
  - simpl. rewrite Hm, Z.eqb_refl. reflexivity.
Qed.

Lemma linear_operation_square (g : group_instance) (x y : ndarray) (m : nat) :
  class_of g = GeneralLinearGroup ->
  shape x = [m; m]%nat -> shape y = [m; m]%nat ->
  group_operation g (VArray x) (VArray y)
  = Returns (VArray (matmul2 m m m x y)).
Proof.
  intros Hc Hx Hy. unfold group_operation, getattr_operation.
  rewrite resolve_operation, Hc. simpl.
  unfold GeneralLinearGroup_operation, py_matmul, np_matmul.
  rewrite Hx, Hy, Nat.eqb_refl. reflexivity.
Qed.

Lemma cyclic_operation_member (g : group_instance) (a b : pyval) :
  class_of g = CyclicGroupInherit ->
  cyclic_member (n g) a = true -> cyclic_member (n g) b = true ->
  exists x y,
    py_int a = Returns x /\ py_int b = Returns y /\
    0 <= x < n g /\ 0 <= y < n g /\
    group_operation g a b = Returns (VInt ((x + y) mod n g)).
Proof.
  intros Hc Ha Hb.
  destruct (cyclic_member_int _ _ Ha) as [x [Hx [Hia Hrx]]].
  destruct (cyclic_member_int _ _ Hb) as [y [Hy [Hib Hry]]].
  exists x, y. repeat split; try assumption; try lia.
  destruct g as [k m]. simpl in *. subst k.
  apply cyclic_operation_int; auto. lia.
Qed.

(** Closure where the operation applies.  In [CyclicGroupInherit] the
    operation is closed on the values the group accepts, and the result is
    an [int] in [0, n).  In [GeneralLinearGroup] it is closed on the
    accepted values that are arrays, and the product has shape [n x n]. *)
Theorem operation_closed (g : group_instance) (a b : pyval) :
  group__validate g a = Returns tt ->
  group__validate g b = Returns tt ->
  (class_of g = GeneralLinearGroup ->
   is_array a = true /\ is_array b = true) ->
  closed_at g a b /\
  (class_of g = CyclicGroupInherit ->
   exists z, group_operation g a b = Returns (VInt z) /\ 0 <= z < n g) /\
  (class_of g = GeneralLinearGroup ->
   exists x m, group_operation g a b = Returns (VArray x) /\
               shape x = [m; m]%nat /\ Z.of_nat m = n g).
Proof.
  intros Ha Hb Harr.
  destruct (group__validate_class g a Ha) as [Hc | Hc].
  - pose proof (group__validate_member g a Hc Ha) as Ma.
    pose proof (group__validate_member g b Hc Hb) as Mb.
    destruct (cyclic_operation_member g a b Hc Ma Mb)
      as [x [y [_ [_ [Hx [Hy Hop]]]]]].
    assert (0 <= (x + y) mod n g < n g) as Hr
        by (apply Z.mod_pos_bound; lia).
    repeat split.
    + exists (VInt ((x + y) mod n g)). split; [exact Hop | ].
      rewrite (group__validate_cyclic g _ Hc).
      rewrite CyclicGroupInherit__validate_member. simpl.
      destruct (Z.leb_spec 0 ((x + y) mod n g)); [ | lia].
      destruct (Z.ltb_spec ((x + y) mod n g) (n g)); [reflexivity | lia].
    + intros _. exists ((x + y) mod n g). split; [exact Hop | exact Hr].
    + intros Hl. congruence.
  - destruct (Harr Hc) as [Ia Ib].
    destruct a as [ | | | | | | x]; try discriminate Ia.
    destruct b as [ | | | | | | y]; try discriminate Ib.
    destruct (group__validate_square g x Hc Ha) as [m [Hx Hm]].
    destruct (group__validate_square g y Hc Hb) as [m' [Hy Hm']].
    assert (m' = m) as -> by lia.
    pose proof (linear_operation_square g x y m Hc Hx Hy) as Hop.
    repeat split.
    + exists (VArray (matmul2 m m m x y)). split; [exact Hop | ].
      now apply (square_group__validate g _ m).
    + intros Hk. congruence.
    + intros _. exists (matmul2 m m m x y), m. auto.
Qed.

Lemma operation_closed_witness :
  closed_at GL2 identity_array identity_array /\
  closed_at CI7 (VInt 3) (VInt 5).
Proof.
  split.
  - apply (operation_closed GL2 identity_array identity_array);
      [reflexivity | reflexivity | intros _; split; reflexivity].
  - apply (operation_closed CI7 (VInt 3) (VInt 5));
      [reflexivity | reflexivity | intros H; discriminate H].
Defined.

(** C6.  Closure fails in [GeneralLinearGroup(2)] on the identity given as
    nested lists: [_validate] coerces the lists and accepts them, the
    operation receives the lists themselves, and [a @ b] on two lists
    raises [TypeError], so there is no result to validate.  The same
    matrix passed as an array is closed, and so are 3 and 5 in
    [CyclicGroupInherit(7)]. *)
Theorem accepted_lists_not_closed :
  group__validate GL2 identity_rows = Returns tt /\
  group_operation GL2 identity_rows identity_rows = Raises TypeError /\
  ~ closed_at GL2 identity_rows identity_rows /\
  closed_at GL2 identity_array identity_array /\
  closed_at CI7 (VInt 3) (VInt 5).
Proof.
  split; [reflexivity | split; [reflexivity | split; [ | split]]].
  - intros [r [Hop _]]. vm_compute in Hop. discriminate Hop.
  - exists identity_array. split; reflexivity.
  - exists (VInt 1). split; reflexivity.
Qed.

(** Associativity where the operation applies.  In [CyclicGroupInherit]
    the operation is associative on the values the group accepts; in
    [GeneralLinearGroup] it is associative on the accepted values that are
    (int64) arrays. *)
Theorem operation_associative (g : group_instance) (a b c : pyval) :
  group__validate g a = Returns tt ->
  group__validate g b = Returns tt ->
  group__validate g c = Returns tt ->
  (class_of g = GeneralLinearGroup ->
   is_array a = true /\ is_array b = true /\ is_array c = true) ->
  associative_at g a b c.
Proof.
  intros Ha Hb Hc Harr. unfold associative_at.
  destruct (group__validate_class g a Ha) as [Hk | Hk].
  - pose proof (group__validate_member g a Hk Ha) as Ma.
    pose proof (group__validate_member g b Hk Hb) as Mb.
    pose proof (group__validate_member g c Hk Hc) as Mc.
    destruct (cyclic_member_int _ _ Ma) as [x [Hx [Ia Rx]]].
    destruct (cyclic_member_int _ _ Mb) as [y [Hy [Ib Ry]]].
    destruct (cyclic_member_int _ _ Mc) as [z [Hz [Ic Rz]]].
    destruct g as [k m]. simpl in *. subst k.
    assert (m <> 0) as Hm by lia.
    exists (VInt ((x + y + z) mod m)).
    rewrite (cyclic_operation_int CyclicGroupInherit m x y a b),
            (cyclic_operation_int CyclicGroupInherit m y z b c); auto.
    simpl.
    rewrite (cyclic_operation_int CyclicGroupInherit m
               ((x + y) mod m) z (VInt ((x + y) mod m)) c),
            (cyclic_operation_int CyclicGroupInherit m
               x ((y + z) mod m) a (VInt ((y + z) mod m))); auto.
    rewrite Zplus_mod_idemp_l, Zplus_mod_idemp_r, Z.add_assoc.
    split; reflexivity.
  - destruct (Harr Hk) as [Ia [Ib Ic]].
    destruct a as [ | | | | | | x]; try discriminate Ia.
    destruct b as [ | | | | | | y]; try discriminate Ib.
    destruct c as [ | | | | | | z]; try discriminate Ic.
    destruct (group__validate_square g x Hk Ha) as [m [Hx Hm]].
    destruct (group__validate_square g y Hk Hb) as [m1 [Hy Hm1]].
    destruct (group__validate_square g z Hk Hc) as [m2 [Hz Hm2]].
    assert (m1 = m) as -> by lia. assert (m2 = m) as -> by lia.
    exists (VArray (matmul2 m m m (matmul2 m m m x y) z)).
    rewrite (linear_operation_square g x y m Hk Hx Hy),
            (linear_operation_square g y z m Hk Hy Hz).
    simpl.
    rewrite (linear_operation_square g (matmul2 m m m x y) z m Hk eq_refl Hz),
            (linear_operation_square g x (matmul2 m m m y z) m Hk Hx eq_refl).
    split; [reflexivity | now rewrite matmul2_assoc].
Qed.

Lemma operation_associative_witness :
  associative_at GL2 identity_array identity_array identity_array /\
  associative_at CI7 (VInt 3) (VInt 5) (VInt 6).
Proof.
  split.
  - apply (operation_associative GL2);
      [reflexivity | reflexivity | reflexivity
      | intros _; repeat split; reflexivity].
  - apply (operation_associative CI7);
      [reflexivity | reflexivity | reflexivity | intros H; discriminate H].
Defined.

(** C9.  Associativity fails in [GeneralLinearGroup(2)] on the identity
    given as nested lists: the lists are accepted by [_validate], and each
    bracketing raises [TypeError] at its first product, so neither side of
    the equation has a value.  The same matrix passed as an array
    associates, and so do 3, 5 and 6 in [CyclicGroupInherit(7)]. *)
Theorem accepted_lists_not_associative :
  group__validate GL2 identity_rows = Returns tt /\
  (ab <- group_operation GL2 identity_rows identity_rows ;;
   group_operation GL2 ab identity_rows) = Raises TypeError /\
  (bc <- group_operation GL2 identity_rows identity_rows ;;
   group_operation GL2 identity_rows bc) = Raises TypeError /\
  ~ associative_at GL2 identity_rows identity_rows identity_rows /\
  associative_at GL2 identity_array identity_array identity_array /\
  associative_at CI7 (VInt 3) (VInt 5) (VInt 6).
Proof.
  split; [reflexivity | split; [reflexivity | split; [reflexivity | ]]].
  split; [ | split].
  - intros [r [Hl _]]. vm_compute in Hl. discriminate Hl.
  - exists identity_array. split; reflexivity.
  - exists (VInt 0). split; reflexivity.
Qed.

(** * Further properties of the module *)

(** ** Creating elements *)

Lemma Element___init___inv (t : element_class) (g : group_instance)
  (v : pyval) (log : list call) (e : element) :
  Element___init__ t g v = (log, Returns e) ->
  e = mk_element t g v /\ log = [call__validate g v] /\
  group__validate g v = Returns tt.
Proof.
  unfold Element___init__, group__validate.
  destruct (getattr__validate g) as [f | x | ]; simpl; try discriminate.
  destruct (f v) as [[] | x | ]; simpl; try discriminate.
  intros H. injection H as <- <-. auto.
Qed.

Lemma call_group_init (g : group_instance) (v : pyval) :
  class_of g = CyclicGroupInherit \/ class_of g = GeneralLinearGroup ->
  call_group g v = Element___init__ Element g v.
Proof.
  intros [Hc | Hc]; unfold call_group; rewrite Hc; reflexivity.
Qed.

Lemma Element___init___cyclic (t : element_class) (m : Z) (v : pyval) :
  Element___init__ t (mk_group CyclicGroupInherit m) v
  = ([call__validate (mk_group CyclicGroupInherit m) v],
     if cyclic_member m v
     then Returns (mk_element t (mk_group CyclicGroupInherit m) v)
     else Raises ValueError).
Proof.
  unfold Element___init__.
  change (getattr__validate (mk_group CyclicGroupInherit m))
    with (Returns (CyclicGroupInherit__validate
                     (mk_group CyclicGroupInherit m))).
  unfold quiet, record, tbind, tret.
  rewrite CyclicGroupInherit__validate_member. simpl n.
  destruct (cyclic_member m v); reflexivity.
Qed.

(** X1.  Calling a [CyclicGroupInherit] validates the value exactly once;
    a member comes back wrapped, as it was passed, in an [Element] of that
    group, and anything else raises [ValueError] and yields no element. *)
Theorem CyclicGroupInherit_call (m : Z) (v : pyval) :
  call_group (mk_group CyclicGroupInherit m) v
  = ([call__validate (mk_group CyclicGroupInherit m) v],
     if cyclic_member m v
     then Returns (mk_element Element (mk_group CyclicGroupInherit m) v)
     else Raises ValueError).
Proof.
  rewrite call_group_init by (left; reflexivity).
  apply Element___init___cyclic.
Qed.

(** X2.  Whatever the class of the group, an element that a call of the
    group returns wraps the very value passed, belongs to that group, and
    its value has passed the group's [_validate], called once. *)
Theorem call_group_invariant (g : group_instance) (v : pyval)
  (log : list call) (e : element) :
  call_group g v = (log, Returns e) ->
  e = mk_element Element g v /\ log = [call__validate g v] /\
  group__validate g v = Returns tt.
Proof.
  destruct g as [[ | | | ] m]; intros H;
    try (vm_compute in H; discriminate H);
    now apply Element___init___inv.
Qed.

Lemma call_group_invariant_witness :
  mk_element Element GL2 letters = mk_element Element GL2 letters /\
  [call__validate GL2 letters] = [call__validate GL2 letters] /\
  group__validate GL2 letters = Returns tt.
Proof.
  apply (call_group_invariant GL2 letters
           [call__validate GL2 letters] (mk_element Element GL2 letters)).
  reflexivity.
Defined.

(** X3.  An element that [__mul__] returns has the class and the group of
    the left operand, holds what the group's operation returned on the two
    values, and that value has passed the group's [_validate]: combination
    keeps the invariant of construction, and never looks at the group or
    the class of the right operand. *)
Theorem Element___mul___invariant (self other : element)
  (log : list call) (e : element) :
  Element___mul__ self other = (log, Returns e) ->
  type_of e = type_of self /\ group e = group self /\
  group_operation (group self) (value self) (value other)
  = Returns (value e) /\
  group__validate (group e) (value e) = Returns tt /\
  log = [call_operation (group self) (value self) (value other);
         call__validate (group self) (value e)].
Proof.
  unfold Element___mul__, group_operation.
  destruct (getattr_operation (group self)) as [op | x | ];
    simpl; try discriminate.
  destruct (op (value self) (value other)) as [r | x | ];
    simpl; try discriminate.
  destruct (Element___init__ (type_of self) (group self) r)
    as [log' o] eqn:Hi.
  destruct o as [e' | x | ]; try discriminate.
  intros H. injection H as <- <-.
  apply Element___init___inv in Hi. destruct Hi as [-> [-> Hv]].
  simpl. auto.
Qed.

Lemma Element___mul___invariant_witness :
  type_of (mk_element Element CI7 (VInt 1)) = type_of e3 /\
  group (mk_element Element CI7 (VInt 1)) = group e3 /\
  group_operation (group e3) (value e3) (value e5)
  = Returns (value (mk_element Element CI7 (VInt 1))) /\
  group__validate (group (mk_element Element CI7 (VInt 1)))
    (value (mk_element Element CI7 (VInt 1))) = Returns tt /\
  [call_operation CI7 (VInt 3) (VInt 5); call__validate CI7 (VInt 1)]
  = [call_operation (group e3) (value e3) (value e5);
     call__validate (group e3) (value (mk_element Element CI7 (VInt 1)))].
Proof.
  apply (Element___mul___invariant e3 e5
           [call_operation CI7 (VInt 3) (VInt 5); call__validate CI7 (VInt 1)]
           (mk_element Element CI7 (VInt 1))).
  reflexivity.
Defined.

(** X4.  [Group] itself is abstract in effect: it binds neither
    [_validate], [operation] nor [symbol], so calling an instance and
    printing it raise [AttributeError], and so does combining elements
    that carry such a group; only [repr] works. *)
Theorem Group_base_class (m : Z) (v : pyval) (t : element_class)
  (other : element) :
  call_group (mk_group Group m) v = ([], Raises AttributeError) /\
  str_group (mk_group Group m) = Raises AttributeError /\
  repr_group (mk_group Group m) = Returns ("Group(" ++ str_int m ++ ")") /\
  Element___mul__ (mk_element t (mk_group Group m) v) other
  = ([], Raises AttributeError).
Proof. repeat split; reflexivity. Qed.

(** X5.  A [CyclicGroupInherit] whose parameter is zero or negative has no
    elements: calling it raises [ValueError] on every value. *)
Theorem CyclicGroupInherit_empty (m : Z) (v : pyval) :
  m <= 0 ->
  result (call_group (mk_group CyclicGroupInherit m) v) = Raises ValueError.
Proof.
  intros Hm. rewrite call_group_init by (left; reflexivity).
  rewrite Element___init___cyclic.
  destruct (cyclic_member m v) eqn:Hv; [ | reflexivity].
  destruct (cyclic_member_int _ _ Hv) as [z [_ [_ Hz]]]. lia.
Qed.

Lemma CyclicGroupInherit_empty_witness :
  result (call_group (mk_group CyclicGroupInherit 0) (VInt 0))
  = Raises ValueError.
Proof. apply (CyclicGroupInherit_empty 0 (VInt 0)). lia. Defined.

(** ** What the general linear group accepts *)

Lemma Element___init___linear (t : element_class) (m : Z) (v : pyval) :
  Element___init__ t (mk_group GeneralLinearGroup m) v
  = ([call__validate (mk_group GeneralLinearGroup m) v],
     _ <- GeneralLinearGroup__validate (mk_group GeneralLinearGroup m) v ;;
     Returns (mk_element t (mk_group GeneralLinearGroup m) v)).
Proof.
  unfold Element___init__.
  change (getattr__validate (mk_group GeneralLinearGroup m))
    with (Returns (GeneralLinearGroup__validate
                     (mk_group GeneralLinearGroup m))).
  unfold quiet, record, tbind, tret.
  destruct (GeneralLinearGroup__validate (mk_group GeneralLinearGroup m) v)
    as [[] | x | ]; reflexivity.
Qed.

Lemma GeneralLinearGroup_call_rejects (m : Z) (v : pyval) :
  ~ coerces_to_square m v ->
  result (call_group (mk_group GeneralLinearGroup m) v) = Raises ValueError.
Proof.
  intros Hn. rewrite call_group_init by (right; reflexivity).
  rewrite Element___init___linear. unfold result. simpl snd.
  destruct (GeneralLinearGroup__validate_outcome
              (mk_group GeneralLinearGroup m) v) as [H | H].
  - apply GeneralLinearGroup__validate_accepts in H. contradiction.
  - rewrite H. reflexivity.
Qed.

Lemma GeneralLinearGroup_call_accepts (m : Z) (v : pyval) :
  coerces_to_square m v ->
  call_group (mk_group GeneralLinearGroup m) v
  = ([call__validate (mk_group GeneralLinearGroup m) v],
     Returns (mk_element Element (mk_group GeneralLinearGroup m) v)).
Proof.
  intros Hs. rewrite call_group_init by (right; reflexivity).
  rewrite Element___init___linear.
  apply (GeneralLinearGroup__validate_accepts
           (mk_group GeneralLinearGroup m)) in Hs.
  rewrite Hs. reflexivity.
Qed.

(** X6.  Calling a [GeneralLinearGroup] validates the value exactly once
    and ends in one of two ways: the value coerces to shape [n x n] and
    comes back wrapped as it was passed (a nested list stays a list), or
    [ValueError] is raised. *)
Theorem GeneralLinearGroup_call (m : Z) (v : pyval) :
  calls (call_group (mk_group GeneralLinearGroup m) v)
  = [call__validate (mk_group GeneralLinearGroup m) v] /\
  ((coerces_to_square m v /\
    result (call_group (mk_group GeneralLinearGroup m) v)
    = Returns (mk_element Element (mk_group GeneralLinearGroup m) v)) \/
   (~ coerces_to_square m v /\
    result (call_group (mk_group GeneralLinearGroup m) v)
    = Raises ValueError)).
Proof.
  split.
  - rewrite call_group_init by (right; reflexivity).
    now rewrite Element___init___linear.
  - destruct (GeneralLinearGroup__validate_outcome
                (mk_group GeneralLinearGroup m) v) as [H | H].
    + apply GeneralLinearGroup__validate_accepts in H. left.
      split; [exact H | ].
      now rewrite (GeneralLinearGroup_call_accepts m v H).
    + assert (~ coerces_to_square m v) as Hn.
      { intros Hs.
        apply (GeneralLinearGroup__validate_accepts
                 (mk_group GeneralLinearGroup m)) in Hs.
        rewrite Hs in H. discriminate H. }
      right. split; [exact Hn | ].
      now apply GeneralLinearGroup_call_rejects.
Qed.

Lemma shape_is_square (s : list nat) (m : Z) :
  shape_is s m m = true ->
  exists k : nat, s = [k; k]%nat /\ Z.of_nat k = m.
Proof.
  destruct s as [ | r [ | c [ | ? ?]]]; simpl; try discriminate.
  intros H. apply andb_prop in H. destruct H as [Hr Hc].
  apply Z.eqb_eq in Hr. apply Z.eqb_eq in Hc.
  exists r. split; [ | exact Hr]. f_equal. f_equal. lia.
Qed.

Lemma np_asarray_shape_discover (v : pyval) (s : list nat) :
  np_asarray_shape v = Returns s -> discover_shape v = Returns s.
Proof.
  unfold np_asarray_shape.
  destruct (discover_shape v) as [s' | x | ]; simpl; try discriminate.
  destruct (List.length s' <=? NPY_MAXDIMS)%nat; [ | discriminate].
  intros H. injection H as <-. reflexivity.
Qed.

Lemma discover_shape_scalar (v : pyval) :
  is_scalar v = true -> discover_shape v = Returns [].
Proof. destruct v; simpl; try discriminate; reflexivity. Qed.

(** X7.  No [GeneralLinearGroup] has a scalar for an element: [None], a
    [bool], an [int], a [float] and a [str] coerce to 0-dimensional arrays,
    and calling the group on one raises [ValueError] whatever [n] is. *)
Theorem GeneralLinearGroup_rejects_scalars (m : Z) (v : pyval) :
  is_scalar v = true ->
  result (call_group (mk_group GeneralLinearGroup m) v) = Raises ValueError.
Proof.
  intros Hv. apply GeneralLinearGroup_call_rejects.
  intros [s [Hs Hq]]. apply np_asarray_shape_discover in Hs.
  rewrite (discover_shape_scalar v Hv) in Hs. injection Hs as <-.
  discriminate Hq.
Qed.

Lemma GeneralLinearGroup_rejects_scalars_witness :
  result (call_group (mk_group GeneralLinearGroup 1) (VInt 1))
  = Raises ValueError.
Proof.
  apply (GeneralLinearGroup_rejects_scalars 1 (VInt 1)). reflexivity.
Defined.

(** X8.  A [GeneralLinearGroup] with a negative parameter has no elements:
    no shape equals [(n, n)], and calling the group raises [ValueError] on
    every value. *)
Theorem GeneralLinearGroup_negative_empty (m : Z) (v : pyval) :
  m < 0 ->
  result (call_group (mk_group GeneralLinearGroup m) v) = Raises ValueError.
Proof.
  intros Hm. apply GeneralLinearGroup_call_rejects.
  intros [s [_ Hq]]. destruct (shape_is_square s m Hq) as [k [_ Hk]]. lia.
Qed.

Lemma GeneralLinearGroup_negative_empty_witness :
  result (call_group (mk_group GeneralLinearGroup (-2)) identity_array)
  = Raises ValueError.
Proof.
  apply (GeneralLinearGroup_negative_empty (-2) identity_array). lia.
Defined.

Lemma discover_shape_list_head (l : list pyval) (s : list nat) :
  discover_shape (VList l) = Returns s ->
  exists t, s = List.length l :: t.
Proof.
  destruct l as [ | x xs]; simpl.
  - intros H. injection H as <-. exists []. reflexivity.
  - destruct (discover_shape x) as [sx | e | ]; simpl; try discriminate.
    match goal with |- context [if ?c then _ else _] => destruct c end;
      try discriminate.
    intros H. injection H as <-. exists sx. reflexivity.
Qed.

(** X9.  [GeneralLinearGroup(0)] accepts no list at all: the empty list
    coerces to shape [(0,)] and a non-empty one to a shape that starts
    with its length, never to [(0, 0)]. *)
Theorem GeneralLinearGroup_zero_rejects_lists (l : list pyval) :
  result (call_group (mk_group GeneralLinearGroup 0) (VList l))
  = Raises ValueError.
Proof.
  apply GeneralLinearGroup_call_rejects.
  intros [s [Hs Hq]]. apply np_asarray_shape_discover in Hs.
  destruct (shape_is_square s 0 Hq) as [k [-> Hk]].
  assert (k = 0%nat) as -> by lia.
  destruct (discover_shape_list_head l _ Hs) as [t Ht].
  injection Ht as Hl Ht.
  destruct l; [ | discriminate Hl].
  simpl in Hs. discriminate Hs.
Qed.

Lemma discover_shape_row (c : nat) (v : pyval) :
  is_row c v = true -> discover_shape v = Returns [c].
Proof.
  destruct v as [ | | | | | items | ]; simpl; try discriminate.
  intros H. apply andb_prop in H. destruct H as [Hl Hs].
  apply Nat.eqb_eq in Hl. subst c.
  destruct items as [ | x xs]; [reflexivity | ].
  simpl in Hs. apply andb_prop in Hs. destruct Hs as [Hx Hxs].
  rewrite (discover_shape_scalar x Hx). simpl.
  replace (forallb _ xs) with true; [reflexivity | ].
  symmetry. apply forallb_forall. intros y Hy.
  rewrite forallb_forall in Hxs.
  now rewrite (discover_shape_scalar y (Hxs y Hy)).
Qed.

Lemma discover_shape_rows (c : nat) (rows : list pyval) :
  rows <> [] -> forallb (is_row c) rows = true ->
  discover_shape (VList rows) = Returns [List.length rows; c].
Proof.
  destruct rows as [ | x xs]; [congruence | ].
  intros _ H. simpl in H. apply andb_prop in H. destruct H as [Hx Hxs].
  cbn [discover_shape]. rewrite (discover_shape_row c x Hx).
  cbn [bind].
  replace (forallb _ xs) with true; [reflexivity | ].
  symmetry. apply forallb_forall. intros y Hy.
  rewrite forallb_forall in Hxs.
  rewrite (discover_shape_row c y (Hxs y Hy)).
  unfold shape_eqb. destruct (list_eq_dec Nat.eq_dec [c] [c]); congruence.
Qed.

(** X10.  A non-empty list of [n] rows, each a list of [n] scalars of any
    kind, is an element of [GeneralLinearGroup(n)]: calling the group
    returns the element that wraps the nested list itself. *)
Theorem GeneralLinearGroup_accepts_rows (rows : list pyval) :
  rows <> [] ->
  forallb (is_row (List.length rows)) rows = true ->
  call_group (mk_group GeneralLinearGroup (Z.of_nat (List.length rows)))
    (VList rows)
  = ([call__validate
        (mk_group GeneralLinearGroup (Z.of_nat (List.length rows)))
        (VList rows)],
     Returns (mk_element Element
                (mk_group GeneralLinearGroup (Z.of_nat (List.length rows)))
                (VList rows))).
Proof.
  intros Hne Hrows. apply GeneralLinearGroup_call_accepts.
  exists [List.length rows; List.length rows]. split.
  - unfold np_asarray_shape.
    rewrite (discover_shape_rows _ rows Hne Hrows). reflexivity.
  - simpl. now rewrite Z.eqb_refl.
Qed.

Lemma GeneralLinearGroup_accepts_rows_witness :
  call_group GL2 letters
  = ([call__validate GL2 letters], Returns (mk_element Element GL2 letters)).
Proof.
  apply (GeneralLinearGroup_accepts_rows
           [VList [VStr "a"; VStr "b"]; VList [VStr "c"; VStr "d"]]).
  - discriminate.
  - reflexivity.
Defined.

(** X11.  A list whose items do not all coerce to one shape is refused by
    every [GeneralLinearGroup]: if some later item differs from the first
    in what [np.asarray] discovers, the call raises [ValueError]. *)
Theorem GeneralLinearGroup_rejects_ragged (m : Z) (x y : pyval)
  (xs : list pyval) :
  In y xs -> discover_shape y <> discover_shape x ->
  result (call_group (mk_group GeneralLinearGroup m) (VList (x :: xs)))
  = Raises ValueError.
Proof.
  intros Hy Hd. apply GeneralLinearGroup_call_rejects.
  intros [s [Hs _]]. apply np_asarray_shape_discover in Hs.
  cbn [discover_shape] in Hs.
  destruct (discover_shape x) as [sx | e | ] eqn:Hx;
    cbn [bind] in Hs; try discriminate.
  match type of Hs with
  | (if ?c then _ else _) = _ => destruct c eqn:Hall
  end; [ | discriminate].
  rewrite forallb_forall in Hall. specialize (Hall y Hy).
  destruct (discover_shape y) as [sy | e | ]; try discriminate.
  unfold shape_eqb in Hall.
  destruct (list_eq_dec Nat.eq_dec sx sy); [ | discriminate].
  subst. contradiction.
Qed.

Lemma GeneralLinearGroup_rejects_ragged_witness :
  result (call_group GL2
            (VList [VList [VInt 1; VInt 2]; VList [VInt 3]]))
  = Raises ValueError.
Proof.
  apply (GeneralLinearGroup_rejects_ragged 2
           (VList [VInt 1; VInt 2]) (VList [VInt 3]) [VList [VInt 3]]).
  - left. reflexivity.
  - discriminate.
Defined.

(** ** Errors of [CyclicGroup.validate] *)

(** X12.  The errors of [CyclicGroup.validate], for every value but an
    array of fewer than two items.  It raises [ValueError] exactly on a
    float inside [0, order) and on an array, whose element-wise answer to
    the range test has no truth value; it raises [TypeError] exactly on
    [None], a [str] or a [list], which the range test cannot compare with
    an [int]. *)
Theorem CyclicGroup_validate_errors (m : Z) (v : pyval) :
  small_array v = false ->
  (group_validate (mk_group CyclicGroup m) v = Raises ValueError <->
   (exists f, v = VFloat f /\ chained_le_lt 0 (VFloat f) m = Returns true) \/
   (exists a, v = VArray a)) /\
  (group_validate (mk_group CyclicGroup m) v = Raises TypeError <->
   v = VNone \/ (exists s, v = VStr s) \/ (exists l, v = VList l)).
Proof.
  intros Hsmall.
  change (group_validate (mk_group CyclicGroup m) v)
    with (CyclicGroup_validate (mk_group CyclicGroup m) v).
  unfold CyclicGroup_validate, order. simpl n.
  destruct v as [ | b | z | f | s | l | a ]; simpl.
  1-3, 5-6:
    split; split; intros H; try discriminate H;
    try (repeat match type of H with
                | _ \/ _ => destruct H as [H | H]
                | ex _ => destruct H as [? H]
                | _ /\ _ => destruct H as [H _]
                end; discriminate H);
    eauto.
  - change (bind (Returns (float_cmp_Z f 0)) _)
      with (chained_le_lt 0 (VFloat f) m).
    assert (exists c, chained_le_lt 0 (VFloat f) m = Returns c) as [c Hc].
    { unfold chained_le_lt, cmp_with_int. cbn [bind].
      destruct (float_cmp_Z f 0) as [[ | | ] | ]; eexists; reflexivity. }
    rewrite Hc. cbn [bind]. split; split.
    + destruct c; [ | discriminate]. intros _. left. exists f. auto.
    + intros [[f' [Hf Hr]] | [a Ha]]; [ | discriminate Ha].
      injection Hf as <-. rewrite Hc in Hr. injection Hr as ->. reflexivity.
    + destruct c; discriminate.
    + intros [H | [[s H] | [l H]]]; discriminate H.
  - simpl in Hsmall. apply Nat.ltb_ge in Hsmall.
    apply Nat.leb_le in Hsmall.
    unfold chained_le_lt, cmp_with_int. rewrite Hsmall. cbn [bind].
    split; split.
    + intros _. right. exists a. reflexivity.
    + reflexivity.
    + discriminate.
    + intros [H | [[s H] | [l H]]]; discriminate H.
Qed.

Lemma CyclicGroup_validate_errors_witness :
  (group_validate (mk_group CyclicGroup 5) identity_array = Raises ValueError
   <->
   (exists f, identity_array = VFloat f /\
              chained_le_lt 0 (VFloat f) 5 = Returns true) \/
   (exists a, identity_array = VArray a)) /\
  (group_validate (mk_group CyclicGroup 5) identity_array = Raises TypeError
   <->
   identity_array = VNone \/ (exists s, identity_array = VStr s) \/
   (exists l, identity_array = VList l)).
Proof.
  apply (CyclicGroup_validate_errors 5 identity_array). reflexivity.
Defined.

(** ** The cyclic operation, beyond the members *)

Lemma integral_int (a : pyval) :
  isinstance_Integral a = true -> exists x, py_int a = Returns x.
Proof. destruct a; simpl; try discriminate; eexists; reflexivity. Qed.

Lemma cyclic_operation_zero (c : group_class) (a b : pyval) :
  c = CyclicGroup \/ c = CyclicGroupInherit ->
  isinstance_Integral a = true -> isinstance_Integral b = true ->
  group_operation (mk_group c 0) a b = Raises ZeroDivisionError.
Proof.
  intros Hc Ha Hb.
  destruct (integral_int a Ha) as [x Hx].
  destruct (integral_int b Hb) as [y Hy].
  assert (group_operation (mk_group c 0) a b
          = (s <- py_add a b ;; py_mod s 0)) as ->
      by (destruct Hc as [-> | ->]; reflexivity).
  unfold py_add. rewrite Ha, Hb, Hx, Hy. reflexivity.
Qed.

(** X13.  On [int] and [bool] operands the operation of both cyclic
    classes depends on the sign of the parameter only for its range: a
    zero parameter raises [ZeroDivisionError]; a positive one returns a
    member of the group even when the operands are not members; a negative
    one returns an [int] in (n, 0], which the group does not accept. *)
Theorem cyclic_operation_by_sign (c : group_class) (m : Z) (a b : pyval) :
  c = CyclicGroup \/ c = CyclicGroupInherit ->
  isinstance_Integral a = true -> isinstance_Integral b = true ->
  match m ?= 0 with
  | Eq => group_operation (mk_group c m) a b = Raises ZeroDivisionError
  | Gt => exists z, group_operation (mk_group c m) a b = Returns (VInt z) /\
                    cyclic_member m (VInt z) = true
  | Lt => exists z, group_operation (mk_group c m) a b = Returns (VInt z) /\
                    m < z <= 0 /\ cyclic_member m (VInt z) = false
  end.
Proof.
  intros Hc Ha Hb.
  destruct (integral_int a Ha) as [x Hx].
  destruct (integral_int b Hb) as [y Hy].
  destruct (Z.compare_spec m 0) as [-> | Hm | Hm].
  - now apply cyclic_operation_zero.
  - exists ((x + y) mod m).
    rewrite (cyclic_operation_int c m x y a b) by (auto; lia).
    pose proof (Z.mod_neg_bound (x + y) m Hm) as Hr.
    repeat split; try lia.
    simpl. destruct (Z.ltb_spec ((x + y) mod m) m); [lia | ].
    apply andb_false_r.
  - exists ((x + y) mod m).
    rewrite (cyclic_operation_int c m x y a b) by (auto; lia).
    pose proof (Z.mod_pos_bound (x + y) m Hm) as Hr.
    split; [reflexivity | ]. simpl.
    destruct (Z.leb_spec 0 ((x + y) mod m)); [ | lia].
    destruct (Z.ltb_spec ((x + y) mod m) m); [reflexivity | lia].
Qed.

Lemma cyclic_operation_by_sign_witness :
  exists z,
    group_operation (mk_group CyclicGroup 5) (VInt (-1)) (VInt 12)
    = Returns (VInt z) /\
    cyclic_member 5 (VInt z) = true.
Proof.
  apply (cyclic_operation_by_sign CyclicGroup 5 (VInt (-1)) (VInt 12));
    [left | | ]; reflexivity.
Defined.

(** X14.  The cyclic operation is commutative on [int] and [bool]
    operands, in both classes and for every parameter, the raising case
    included. *)
Theorem cyclic_operation_commutative (c : group_class) (m : Z)
  (a b : pyval) :
  c = CyclicGroup \/ c = CyclicGroupInherit ->
  isinstance_Integral a = true -> isinstance_Integral b = true ->
  group_operation (mk_group c m) a b = group_operation (mk_group c m) b a /\
  group_operation (mk_group c m) a b <> Unmodelled.
Proof.
  intros Hc Ha Hb.
  destruct (integral_int a Ha) as [x Hx].
  destruct (integral_int b Hb) as [y Hy].
  destruct (Z.eq_dec m 0) as [-> | Hm].
  - rewrite !cyclic_operation_zero by assumption. split; congruence.
  - rewrite (cyclic_operation_int c m x y a b),
            (cyclic_operation_int c m y x b a) by assumption.
    rewrite (Z.add_comm y x). split; congruence.
Qed.

Lemma cyclic_operation_commutative_witness :
  group_operation CI7 (VInt 3) (VBool true)
  = group_operation CI7 (VBool true) (VInt 3) /\
  group_operation CI7 (VInt 3) (VBool true) <> Unmodelled.
Proof.
  apply (cyclic_operation_commutative CyclicGroupInherit 7
           (VInt 3) (VBool true));
    [right | | ]; reflexivity.
Defined.

(** X15.  Every member of a cyclic group has an inverse member: for a
    member of integer value [x], the [int] [(n - x) % n] is a member, and
    the operation sends the pair to 0 in either order. *)
Theorem cyclic_inverse (c : group_class) (m x : Z) (a : pyval) :
  c = CyclicGroup \/ c = CyclicGroupInherit ->
  cyclic_member m a = true -> py_int a = Returns x ->
  cyclic_member m (VInt ((m - x) mod m)) = true /\
  group_operation (mk_group c m) a (VInt ((m - x) mod m))
  = Returns (VInt 0) /\
  group_operation (mk_group c m) (VInt ((m - x) mod m)) a
  = Returns (VInt 0).
Proof.
  intros Hc Ha Hx.
  destruct (cyclic_member_int _ _ Ha) as [x' [Hx' [Hi Hr]]].
  rewrite Hx in Hx'. injection Hx' as <-.
  assert (0 < m) as Hm by lia.
  pose proof (Z.mod_pos_bound (m - x) m Hm) as Hb.
  assert ((x + (m - x) mod m) mod m = 0) as H1.
  { rewrite Zplus_mod_idemp_r. replace (x + (m - x)) with (1 * m) by lia.
    apply Z_mod_mult. }
  repeat split.
  - simpl. destruct (Z.leb_spec 0 ((m - x) mod m)); [ | lia].
    destruct (Z.ltb_spec ((m - x) mod m) m); [reflexivity | lia].
  - rewrite (cyclic_operation_int c m x ((m - x) mod m) a _)
      by (auto; lia).
    now rewrite H1.
  - rewrite (cyclic_operation_int c m ((m - x) mod m) x _ a)
      by (auto; lia).
    now rewrite Z.add_comm, H1.
Qed.

Lemma cyclic_inverse_witness :
  cyclic_member 7 (VInt ((7 - 3) mod 7)) = true /\
  group_operation CI7 (VInt 3) (VInt ((7 - 3) mod 7)) = Returns (VInt 0) /\
  group_operation CI7 (VInt ((7 - 3) mod 7)) (VInt 3) = Returns (VInt 0).
Proof.
  apply (cyclic_inverse CyclicGroupInherit 7 3 (VInt 3));
    [right | | ]; reflexivity.
Defined.

(** ** Combining elements *)

Lemma Element___mul___returns (self other : element) (v : pyval) :
  group_operation (group self) (value self) (value other) = Returns v ->
  group__validate (group self) v = Returns tt ->
  Element___mul__ self other
  = ([call_operation (group self) (value self) (value other);
      call__validate (group self) v],
     Returns (mk_element (type_of self) (group self) v)).
Proof.
  unfold group_operation, Element___mul__.
  destruct (getattr_operation (group self)) as [op | e | ];
    simpl; try discriminate.
  intros -> Hv. rewrite (Element___init___accepts _ _ _ Hv). reflexivity.
Qed.

Lemma Element___mul___operation_raises (self other : element) (e : exn)
  (op : pyval -> pyval -> outcome pyval) :
  getattr_operation (group self) = Returns op ->
  op (value self) (value other) = Raises e ->
  Element___mul__ self other
  = ([call_operation (group self) (value self) (value other)], Raises e).
Proof.
  intros Hg Ho. unfold Element___mul__. rewrite Hg. simpl. rewrite Ho.
  reflexivity.
Qed.

Lemma Element___mul___cyclic (self other : element) (m x y : Z) :
  group self = mk_group CyclicGroupInherit m -> 0 < m ->
  isinstance_Integral (value self) = true -> py_int (value self) = Returns x ->
  isinstance_Integral (value other) = true ->
  py_int (value other) = Returns y ->
  Element___mul__ self other
  = ([call_operation (group self) (value self) (value other);
      call__validate (group self) (VInt ((x + y) mod m))],
     Returns (mk_element (type_of self) (group self)
                (VInt ((x + y) mod m)))).
Proof.
  intros Hg Hm Ia Hx Ib Hy.
  apply Element___mul___returns; rewrite Hg.
  - apply cyclic_operation_int; auto. lia.
  - rewrite group__validate_cyclic by reflexivity.
    rewrite CyclicGroupInherit__validate_member. simpl.
    pose proof (Z.mod_pos_bound (x + y) m Hm).
    destruct (Z.leb_spec 0 ((x + y) mod m)); [ | lia].
    destruct (Z.ltb_spec ((x + y) mod m) m); [reflexivity | lia].
Qed.

(** X16.  [__mul__] does not compare the groups of its operands.  When the
    left operand belongs to [CyclicGroupInherit(n)] and the right one to
    [CyclicGroupInherit(n')], whatever [n'] is, the product is computed
    modulo [n] alone and is an element of the left operand's group and
    class. *)
Theorem Element___mul___mixed_orders (s o : element_class) (m m' : Z)
  (a b : pyval) :
  cyclic_member m a = true -> cyclic_member m' b = true ->
  exists z,
    result (Element___mul__
              (mk_element s (mk_group CyclicGroupInherit m) a)
              (mk_element o (mk_group CyclicGroupInherit m') b))
    = Returns (mk_element s (mk_group CyclicGroupInherit m) (VInt z)) /\
    cyclic_member m (VInt z) = true.
Proof.
  intros Ha Hb.
  destruct (cyclic_member_int _ _ Ha) as [x [Hx [Ia Rx]]].
  destruct (cyclic_member_int _ _ Hb) as [y [Hy [Ib Ry]]].
  assert (0 < m) as Hm by lia.
  exists ((x + y) mod m). split.
  - rewrite (Element___mul___cyclic _ _ m x y); auto.
  - pose proof (Z.mod_pos_bound (x + y) m Hm). simpl.
    destruct (Z.leb_spec 0 ((x + y) mod m)); [ | lia].
    destruct (Z.ltb_spec ((x + y) mod m) m); [reflexivity | lia].
Qed.

Lemma Element___mul___mixed_orders_witness :
  exists z,
    result (Element___mul__
              (mk_element Element (mk_group CyclicGroupInherit 5) (VInt 3))
              (mk_element Element (mk_group CyclicGroupInherit 7) (VInt 6)))
    = Returns (mk_element Element (mk_group CyclicGroupInherit 5) (VInt z)) /\
    cyclic_member 5 (VInt z) = true.
Proof.
  apply (Element___mul___mixed_orders Element Element 5 7 (VInt 3) (VInt 6));
    reflexivity.
Defined.

(** X17.  Products of elements associate in [CyclicGroupInherit]: when [x]
    and [y] belong to the same group of positive order and the three
    values are integers, [(x * y) * z] and [x * (y * z)] return the same
    element, of the class and group of [x]. *)
Theorem Element___mul___associative (x y z : element) (m a b c : Z) :
  group x = mk_group CyclicGroupInherit m -> group y = group x -> 0 < m ->
  isinstance_Integral (value x) = true -> py_int (value x) = Returns a ->
  isinstance_Integral (value y) = true -> py_int (value y) = Returns b ->
  isinstance_Integral (value z) = true -> py_int (value z) = Returns c ->
  result (mul_left x y z)
  = Returns (mk_element (type_of x) (group x) (VInt ((a + b + c) mod m))) /\
  result (mul_right x y z)
  = Returns (mk_element (type_of x) (group x) (VInt ((a + b + c) mod m))).
Proof.
  intros Hx Hy Hm Ia Ha Ib Hb Ic Hc.
  assert (group y = mk_group CyclicGroupInherit m) as Hy' by congruence.
  unfold mul_left, mul_right.
  rewrite (Element___mul___cyclic x y m a b),
          (Element___mul___cyclic y z m b c) by assumption.
  cbn [tbind].
  rewrite (Element___mul___cyclic _ z m ((a + b) mod m) c),
          (Element___mul___cyclic x _ m a ((b + c) mod m))
    by (assumption || reflexivity).
  unfold result. cbn [snd type_of group].
  rewrite Zplus_mod_idemp_l, Zplus_mod_idemp_r, Z.add_assoc.
  split; reflexivity.
Qed.

Lemma Element___mul___associative_witness :
  result (mul_left e3 e5 (mk_element Element CI5 (VInt 6)))
  = Returns (mk_element Element CI7 (VInt 0)) /\
  result (mul_right e3 e5 (mk_element Element CI5 (VInt 6)))
  = Returns (mk_element Element CI7 (VInt 0)).
Proof.
  apply (Element___mul___associative
           e3 e5 (mk_element Element CI5 (VInt 6)) 7 3 5 6);
    try reflexivity; lia.
Defined.

(** X18.  Products of elements commute in value: for two elements of one
    [CyclicGroupInherit] of positive order with integer values, [x * y]
    and [y * x] hold the same value in the same group; each keeps the
    class of its own left operand. *)
Theorem Element___mul___commutative (x y : element) (m a b : Z) :
  group x = mk_group CyclicGroupInherit m -> group y = group x -> 0 < m ->
  isinstance_Integral (value x) = true -> py_int (value x) = Returns a ->
  isinstance_Integral (value y) = true -> py_int (value y) = Returns b ->
  result (Element___mul__ x y)
  = Returns (mk_element (type_of x) (group x) (VInt ((a + b) mod m))) /\
  result (Element___mul__ y x)
  = Returns (mk_element (type_of y) (group x) (VInt ((a + b) mod m))).
Proof.
  intros Hx Hy Hm Ia Ha Ib Hb.
  assert (group y = mk_group CyclicGroupInherit m) as Hy' by congruence.
  rewrite (Element___mul___cyclic x y m a b),
          (Element___mul___cyclic y x m b a) by assumption.
  unfold result. cbn [snd]. rewrite Hy, (Z.add_comm b a).
  split; reflexivity.
Qed.

Lemma Element___mul___commutative_witness :
  result (Element___mul__ e3 e5)
  = Returns (mk_element Element CI7 (VInt 1)) /\
  result (Element___mul__ e5 e3)
  = Returns (mk_element Element CI7 (VInt 1)).
Proof.
  apply (Element___mul___commutative e3 e5 7 3 5); try reflexivity; lia.
Defined.

(** X19.  In a [GeneralLinearGroup], combining two elements whose values
    are not arrays (nested lists, as the group accepts them, or any other
    builtin) raises [TypeError] at the operation, before any validation
    of a product. *)
Theorem Element___mul___lists_TypeError (self other : element) :
  class_of (group self) = GeneralLinearGroup ->
  is_array (value self) = false -> is_array (value other) = false ->
  Element___mul__ self other
  = ([call_operation (group self) (value self) (value other)],
     Raises TypeError).
Proof.
  intros Hc Ha Hb.
  apply (Element___mul___operation_raises self other TypeError
           (GeneralLinearGroup_operation (group self))).
  - unfold getattr_operation. rewrite resolve_operation, Hc. reflexivity.
  - unfold GeneralLinearGroup_operation.
    destruct (value self); try discriminate Ha;
      destruct (value other); try discriminate Hb; reflexivity.
Qed.

Lemma Element___mul___lists_TypeError_witness :
  Element___mul__ (mk_element Element GL2 identity_rows)
                  (mk_element Element GL2 letters)
  = ([call_operation GL2 identity_rows letters], Raises TypeError).
Proof.
  apply (Element___mul___lists_TypeError
           (mk_element Element GL2 identity_rows)
           (mk_element Element GL2 letters)); reflexivity.
Defined.

(** X20.  In a [GeneralLinearGroup], combining two square arrays of
    different sizes raises [ValueError]: the error is numpy's, raised by
    the product, and no validation of a result takes place. *)
Theorem Element___mul___sizes_ValueError (self other : element)
  (x y : ndarray) (k k' : nat) :
  class_of (group self) = GeneralLinearGroup ->
  value self = VArray x -> value other = VArray y ->
  shape x = [k; k]%nat -> shape y = [k'; k']%nat -> k <> k' ->
  Element___mul__ self other
  = ([call_operation (group self) (value self) (value other)],
     Raises ValueError).
Proof.
  intros Hc Hx Hy Sx Sy Hk.
  apply (Element___mul___operation_raises self other ValueError
           (GeneralLinearGroup_operation (group self))).
  - unfold getattr_operation. rewrite resolve_operation, Hc. reflexivity.
  - unfold GeneralLinearGroup_operation, py_matmul, np_matmul.
    rewrite Hx, Hy, Sx, Sy.
    destruct (Nat.eqb_spec k k'); [contradiction | reflexivity].
Qed.

Lemma Element___mul___sizes_ValueError_witness :
  Element___mul__ (mk_element Element GL2 identity_array)
                  (mk_element Element (mk_group GeneralLinearGroup 3)
                     three_by_three_array)
  = ([call_operation GL2 identity_array three_by_three_array],
     Raises ValueError).
Proof.
  apply (Element___mul___sizes_ValueError
           (mk_element Element GL2 identity_array)
           (mk_element Element (mk_group GeneralLinearGroup 3)
              three_by_three_array)
           (mk_ndarray [2; 2]%nat [1; 0; 0; 1])
           (mk_ndarray [3; 3]%nat [1; 0; 0; 0; 1; 0; 0; 0; 1]) 2 3);
    try reflexivity.
  discriminate.
Defined.

Lemma Element___mul___linear (self other : element) (g : group_instance)
  (x y : ndarray) (k : nat) :
  group self = g -> class_of g = GeneralLinearGroup -> Z.of_nat k = n g ->
  value self = VArray x -> value other = VArray y ->
  shape x = [k; k]%nat -> shape y = [k; k]%nat ->
  Element___mul__ self other
  = ([call_operation g (VArray x) (VArray y);
      call__validate g (VArray (matmul2 k k k x y))],
     Returns (mk_element (type_of self) g (VArray (matmul2 k k k x y)))).
Proof.
  intros Hg Hc Hk Hx Hy Sx Sy.
  rewrite <- Hx, <- Hy, <- Hg.
  apply Element___mul___returns; rewrite ?Hg, ?Hx, ?Hy.
  - now apply linear_operation_square.
  - now apply (square_group__validate g _ k).
Qed.

(** X21.  Products of elements associate in [GeneralLinearGroup]: when
    [x] and [y] belong to the same group [GeneralLinearGroup(n)] and the
    three values are [n x n] int64 arrays, [(x * y) * z] and [x * (y * z)]
    return the same element, of the class and group of [x]. *)
Theorem Element___mul___associative_linear (x y z : element)
  (a b c : ndarray) (k : nat) :
  class_of (group x) = GeneralLinearGroup -> group y = group x ->
  Z.of_nat k = n (group x) ->
  value x = VArray a -> value y = VArray b -> value z = VArray c ->
  shape a = [k; k]%nat -> shape b = [k; k]%nat -> shape c = [k; k]%nat ->
  result (mul_left x y z)
  = Returns (mk_element (type_of x) (group x)
               (VArray (matmul2 k k k (matmul2 k k k a b) c))) /\
  result (mul_right x y z) = result (mul_left x y z).
Proof.
  intros Hc Hy Hk Va Vb Vc Sa Sb Sc.
  unfold mul_left, mul_right.
  rewrite (Element___mul___linear x y (group x) a b k),
          (Element___mul___linear y z (group x) b c k)
    by (assumption || reflexivity).
  cbn [tbind].
  rewrite (Element___mul___linear _ z (group x) (matmul2 k k k a b) c k),
          (Element___mul___linear x _ (group x) a (matmul2 k k k b c) k)
    by (assumption || reflexivity).
  unfold result. cbn [snd]. rewrite matmul2_assoc.
  split; reflexivity.
Qed.

Lemma Element___mul___associative_linear_witness :
  result (mul_left (mk_element Element GL2 identity_array)
                   (mk_element Element GL2 identity_array)
                   (mk_element Element GL2 identity_array))
  = Returns (mk_element Element GL2
               (VArray (matmul2 2 2 2
                          (matmul2 2 2 2 (mk_ndarray [2; 2]%nat [1; 0; 0; 1])
                                         (mk_ndarray [2; 2]%nat [1; 0; 0; 1]))
                          (mk_ndarray [2; 2]%nat [1; 0; 0; 1])))) /\
  result (mul_right (mk_element Element GL2 identity_array)
                    (mk_element Element GL2 identity_array)
                    (mk_element Element GL2 identity_array))
  = result (mul_left (mk_element Element GL2 identity_array)
                     (mk_element Element GL2 identity_array)
                     (mk_element Element GL2 identity_array)).
Proof.
  apply (Element___mul___associative_linear
           (mk_element Element GL2 identity_array)
           (mk_element Element GL2 identity_array)
           (mk_element Element GL2 identity_array)
           (mk_ndarray [2; 2]%nat [1; 0; 0; 1])
           (mk_ndarray [2; 2]%nat [1; 0; 0; 1])
           (mk_ndarray [2; 2]%nat [1; 0; 0; 1]) 2); reflexivity.
Defined.

(** ** The product array *)

Lemma length_rows {A} (f : nat -> nat -> A) (c : nat) (l : list nat) :
  List.length (flat_map (fun i => map (f i) (seq 0 c)) l)
  = (List.length l * c)%nat.
Proof.
  induction l as [ | i l IH]; [reflexivity | ].
  cbn [flat_map List.length].
  now rewrite length_app, length_map, length_seq, IH.
Qed.

Lemma np_matmul_shape_data (a b p : ndarray) :
  np_matmul a b = Returns p ->
  exists r c : nat,
    shape p = [r; c]%nat /\
    List.length (data p) = (r * c)%nat /\
    Forall int64 (data p).
Proof.
  unfold np_matmul.
  destruct (shape a) as [ | r [ | k [ | ? ?]]];
    destruct (shape b) as [ | k' [ | c [ | ? ?]]]; try discriminate.
  destruct (k =? k')%nat; [ | discriminate].
  intros H. injection H as <-.
  exists r, c. split; [reflexivity | split].
  - unfold matmul2. cbn [data].
    now rewrite (length_rows (fun i j => dot k c a b i j)), length_seq.
  - unfold matmul2. cbn [data]. apply Forall_forall. intros z Hz.
    apply in_flat_map in Hz. destruct Hz as [i [_ Hz]].
    apply in_map_iff in Hz. destruct Hz as [j [<- _]].
    rewrite dot_zsum. apply wrap64_range.
Qed.

(** X22.  On an [r x k] and a [k x c] int64 array
    [GeneralLinearGroup.operation] returns the matrix product: the
    [r x c] array whose item [(i, j)] is the sum over [t] of
    [a[i, t] * b[t, j]], reduced to int64 by wrap-around; it has [r * c]
    items, all within the int64 range. *)
Theorem GeneralLinearGroup_operation_product (g : group_instance)
  (x y : ndarray) (r k c : nat) :
  shape x = [r; k]%nat -> shape y = [k; c]%nat ->
  exists p : ndarray,
    GeneralLinearGroup_operation g (VArray x) (VArray y)
    = Returns (VArray p) /\
    shape p = [r; c]%nat /\
    List.length (data p) = (r * c)%nat /\
    Forall int64 (data p) /\
    forall i j : nat,
      (i < r)%nat -> (j < c)%nat ->
      item p c i j
      = wrap64 (zsum (fun t => item x k i t * item y c t j) (seq 0 k)).
Proof.
  intros Hx Hy. exists (matmul2 r k c x y).
  assert (np_matmul x y = Returns (matmul2 r k c x y)) as Hp
      by (unfold np_matmul; now rewrite Hx, Hy, Nat.eqb_refl).
  split; [ | split; [reflexivity | ]].
  - unfold GeneralLinearGroup_operation, py_matmul. now rewrite Hp.
  - destruct (np_matmul_shape_data x y _ Hp) as [r' [c' [Hs [Hl Hr]]]].
    injection Hs as <- <-.
    split; [exact Hl | split; [exact Hr | ]].
    intros i j Hi Hj. unfold item at 1, matmul2. cbn [data].
    rewrite (nth_rows (fun i j => dot k c x y i j)) by assumption.
    apply dot_zsum.
Qed.

Lemma GeneralLinearGroup_operation_product_witness :
  exists p : ndarray,
    GeneralLinearGroup_operation GL2
      (VArray (mk_ndarray [2; 2]%nat [1; 0; 0; 1]))
      (VArray (mk_ndarray [2; 2]%nat [2; 0; 0; 2]))
    = Returns (VArray p) /\
    shape p = [2; 2]%nat /\
    List.length (data p) = (2 * 2)%nat /\
    Forall int64 (data p) /\
    forall i j : nat,
      (i < 2)%nat -> (j < 2)%nat ->
      item p 2 i j
      = wrap64 (zsum (fun t => item (mk_ndarray [2; 2]%nat [1; 0; 0; 1]) 2 i t
                               * item (mk_ndarray [2; 2]%nat [2; 0; 0; 2])
                                      2 t j)
                     (seq 0 2)).
Proof.
  apply (GeneralLinearGroup_operation_product GL2
           (mk_ndarray [2; 2]%nat [1; 0; 0; 1])
           (mk_ndarray [2; 2]%nat [2; 0; 0; 2]) 2 2 2); reflexivity.
Defined.

(** ** Display *)

(** X23.  [str] of a group is its letter followed by the parameter, so the
    two cyclic classes print alike although their [repr] differs, and
    [str] of the base [Group] raises [AttributeError]; [str] of an element
    is [str] of its value, an underscore, and [str] of its group. *)
Theorem display (g : group_instance) (e : element) (m : Z) :
  str_group g
  = match letter (class_of g) with
    | Some s => Returns (s ++ str_int (n g))
    | None => Raises AttributeError
    end /\
  Element___str__ e
  = (v <- py_str (value e) ;;
     match letter (class_of (group e)) with
     | Some s => Returns (v ++ "_" ++ s ++ str_int (n (group e)))
     | None => Raises AttributeError
     end) /\
  str_group (mk_group CyclicGroup m)
  = str_group (mk_group CyclicGroupInherit m) /\
  repr_group (mk_group CyclicGroup m)
  <> repr_group (mk_group CyclicGroupInherit m).
Proof.
  assert (forall h, str_group h
                    = match letter (class_of h) with
                      | Some s => Returns (s ++ str_int (n h))
                      | None => Raises AttributeError
                      end) as Hs
      by (intros [[ | | | ] k]; reflexivity).
  split; [apply Hs | split; [ | split]].
  - unfold Element___str__. rewrite Hs.
    destruct (py_str (value e)) as [v | x | ]; try reflexivity.
    cbn [bind]. destruct (letter (class_of (group e))); reflexivity.
  - reflexivity.
  - rewrite !repr_group_format. cbn [__name__ class_of n].
    intros H. injection H as H. discriminate H.
Qed.
